(** * Route 53 hosted-zone backup function

    A shallow embedding of [src/Lambda/route53_config_backup_function.py]
    and the properties of its handler, its data classes and its backup
    document builder.

    The three AWS clients, [json.dumps], the process environment, the clock
    and the uuid generator are external: they are gathered in a [World] of
    oracles, and every call the function makes to a client is recorded in a
    trace.  Python exceptions are values of [result]. *)

From Stdlib Require Import ZArith Ascii.
From stdpp Require Import gmap strings list fin_maps.

Set Default Proof Using "Type".
Local Set Warnings "-register-all".

(** ** Python values *)

(** The JSON-like values that travel through the function: the payloads of
    the boto3 responses and the backup document that is handed to
    [json.dumps]. *)
Inductive pyval : Type :=
| PNone
| PBool (b : bool)
| PInt (z : Z)
| PStr (s : string)
| PList (l : list pyval)
| PDict (d : gmap string pyval).

Module Py.

Definition is_empty (s : string) : bool :=
  match s with EmptyString => true | String _ _ => false end.

(** Truth value testing, as [if v:] does it. *)
Definition truthy (v : pyval) : bool :=
  match v with
  | PNone => false
  | PBool b => b
  | PInt z => negb (z =? 0)%Z
  | PStr s => negb (is_empty s)
  | PList l => match l with [] => false | _ :: _ => true end
  | PDict d => negb (bool_decide (d = ∅))
  end.

(** [d.get(k, dflt)] *)
Definition get (d : gmap string pyval) (k : string) (dflt : pyval) : pyval :=
  default dflt (d !! k).

(** Membership of a character in the [chars] argument of [rstrip]. *)
Fixpoint mem (c : ascii) (chars : string) : bool :=
  match chars with
  | EmptyString => false
  | String c' chars' => if Ascii.eqb c c' then true else mem c chars'
  end.

(** [s.rstrip(chars)]: the longest suffix made of characters of [chars]
    is removed. *)
Fixpoint rstrip (s chars : string) : string :=
  match s with
  | EmptyString => EmptyString
  | String c s' =>
      let r := rstrip s' chars in
      if is_empty r && mem c chars then EmptyString else String c r
  end.

(** [s.split(sep)] for a one-character separator. *)
Fixpoint split (s : string) (sep : ascii) : list string :=
  match s with
  | EmptyString => [EmptyString]
  | String c s' =>
      if Ascii.eqb c sep then EmptyString :: split s' sep
      else match split s' sep with
           | [] => [String c EmptyString]
           | seg :: segs => String c seg :: segs
           end
  end.

(** [repr(s)] for a string with no quote and no character to escape, as
    the dictionary keys of this module are. *)
Definition repr (s : string) : string := "'" +:+ s +:+ "'".

(** [type(v).__name__] *)
Definition type_name (v : pyval) : string :=
  match v with
  | PNone => "NoneType"
  | PBool _ => "bool"
  | PInt _ => "int"
  | PStr _ => "str"
  | PList _ => "list"
  | PDict _ => "dict"
  end.

(** [s.startswith(prefix)] *)
Fixpoint startswith (s prefix : string) : bool :=
  match prefix, s with
  | EmptyString, _ => true
  | String _ _, EmptyString => false
  | String p prefix', String c s' => Ascii.eqb c p && startswith s' prefix'
  end.

(** [sub in s] *)
Fixpoint contains (s sub : string) : bool :=
  match s with
  | EmptyString => is_empty sub
  | String _ s' => startswith s sub || contains s' sub
  end.

(** [s.endswith(suffix)], used to state properties of [rstrip]. *)
Fixpoint endswith_char (s : string) (c : ascii) : bool :=
  match s with
  | EmptyString => false
  | String c' EmptyString => Ascii.eqb c' c
  | String _ s' => endswith_char s' c
  end.

End Py.

(** ** Exceptions *)

(** An exception instance: its class and [str(e)]. *)
Record exn := Exn { exn_class : string; exn_str : string }.

Inductive result (A : Type) : Type :=
| Ok (a : A)
| Raise (e : exn).
Arguments Ok {A} a.
Arguments Raise {A} e.

Definition is_ok {A} (r : result A) : bool :=
  match r with Ok _ => true | Raise _ => false end.

Definition rbind {A B} (r : result A) (k : A → result B) : result B :=
  match r with
  | Ok a => k a
  | Raise e => Raise e
  end.

(** ** Data classes *)

Module ConfigItem.
Record t := mk {
  resource_id : string;
  resource_type : string;
  configuration_item_status : string }.

Definition is_route53_hosted_zone (self : t) : bool :=
  String.eqb (resource_type self) "AWS::Route53::HostedZone".

(** [self.resource_id.split("/")[-1]]; [split] never returns an empty
    list, so the index is always in range. *)
Definition hosted_zone_id (self : t) : string :=
  default EmptyString (last (Py.split (resource_id self) "/")).

Definition trigger_type (self : t) : string :=
  if String.eqb (configuration_item_status self) "resourcediscovered"
  then "creation" else "change".
End ConfigItem.

Module ResourceRecordSet.
(** [from_dict] stores whatever the listing holds, so the fields are
    untyped values; [ttl] and [alias_target] are [PNone] when absent. *)
Record t := mk {
  name : pyval;
  type : pyval;
  ttl : pyval;
  resource_records : pyval;
  alias_target : pyval }.

Definition from_dict (data : gmap string pyval) : t :=
  {| name := Py.get data "Name" (PStr EmptyString);
     type := Py.get data "Type" (PStr EmptyString);
     ttl := Py.get data "TTL" PNone;
     resource_records := Py.get data "ResourceRecords" (PList []);
     alias_target := Py.get data "AliasTarget" PNone |}.
End ResourceRecordSet.

Module HostedZoneDetails.
Record t := mk {
  id : string;
  name : pyval;
  config : gmap string pyval;
  resource_record_sets : list ResourceRecordSet.t }.

(** [self.name.rstrip(".")]; a name that is not a string has no
    [rstrip]. *)
Definition normalized_name (self : t) : result string :=
  match name self with
  | PStr s => Ok (Py.rstrip s ".")
  | v =>
      Raise (Exn "AttributeError"
               ("'" +:+ Py.type_name v
                  +:+ "' object has no attribute 'rstrip'"))
  end.
End HostedZoneDetails.

Module BackupMetadata.
Record t := mk {
  account_id : string;
  hosted_zone_id : string;
  hosted_zone_name : string;
  trigger_type : string;
  timestamp : string;
  backup_id : string }.

Definition to_dict (self : t) : gmap string string :=
  {[ "accountId" := account_id self;
     "hostedZoneId" := hosted_zone_id self;
     "hostedZoneName" := hosted_zone_name self;
     "triggerType" := trigger_type self;
     "timestamp" := timestamp self;
     "backupId" := backup_id self ]}.
End BackupMetadata.

(** ** The triggering event *)

(** The event is a view on the dictionary the runtime delivers: every
    property reads the dictionary when it is accessed, and raises when the
    entry is not there.  A property is therefore a [result], the same one at
    every access. *)
Module Event.
Record ConfigurationItem := mkItem {
  resource_id : result string;
  resource_type : result string;
  accountid : result string;
  configuration_item_capture_time : result string }.

Record InvokingEvent := mkInvoking {
  message_type : result string;
  configuration_item : result ConfigurationItem }.

Record AWSConfigRuleEvent := mk {
  invoking_event : result InvokingEvent;
  result_token : result string }.
End Event.

(** ** External calls and the world *)

Record Evaluation := mkEvaluation {
  ComplianceResourceType : string;
  ComplianceResourceId : string;
  ComplianceType : string;
  OrderingTimestamp : string;
  Annotation : string }.

(** One entry per request sent to an AWS client. *)
Inductive call : Type :=
| GetHostedZone (Id : string)
| ListResourceRecordSets (HostedZoneId : string) (page : nat)
| PutObject (Bucket Key Body ContentType ServerSideEncryption : string)
| PutEvaluations (Evaluations : list Evaluation) (ResultToken : string).

Record World := mkWorld {
  (** [aws_route53.get_hosted_zone(Id=...)["HostedZone"]] *)
  route53_get_hosted_zone : string → result (gmap string pyval);
  (** the pages of [list_resource_record_sets], each one its
      ["ResourceRecordSets"] list or the failure of its request *)
  route53_list_resource_record_sets :
    string → list (result (list (gmap string pyval)));
  s3_put_object : string → string → string → string → string → result unit;
  config_put_evaluations : list Evaluation → string → result unit;
  (** [json.dumps(data, indent=2)] *)
  json_dumps : pyval → result string;
  environ : gmap string string;
  (** [datetime.now(timezone.utc).strftime("%Y%m%dT%H%M%SZ")] *)
  utcnow : string;
  (** [str(uuid.uuid4())] *)
  uuid4 : string }.

(** ** Computations that call the clients and may raise *)

Definition Eff (A : Type) : Type := list call * result A.

Module EffM.
Definition ret {A} (a : A) : Eff A := ([], Ok a).
Definition raise {A} (e : exn) : Eff A := ([], Raise e).
Definition bind {A B} (m : Eff A) (k : A → Eff B) : Eff B :=
  match m with
  | (tr, Ok a) => let '(tr', r) := k a in (tr ++ tr', r)
  | (tr, Raise e) => (tr, Raise e)
  end.
(** a pure step that may raise *)
Definition pure {A} (r : result A) : Eff A := ([], r).
(** a request to a client, with the client's answer *)
Definition request {A} (c : call) (r : result A) : Eff A := ([c], r).
(** [try: m except Exception as e: h e] *)
Definition try_except {A} (m : Eff A) (h : exn → Eff A) : Eff A :=
  match m with
  | (tr, Ok a) => (tr, Ok a)
  | (tr, Raise e) => let '(tr', r) := h e in (tr ++ tr', r)
  end.
End EffM.

Declare Scope eff_scope.
Delimit Scope eff_scope with eff.
Notation "'let!' x ':=' m 'in' k" := (EffM.bind m (fun x => k))
  (at level 10, x name, m at level 100, k at level 200) : eff_scope.
Notation "'do!' m 'in' k" := (EffM.bind m (fun _ => k))
  (at level 10, m at level 100, k at level 200) : eff_scope.

Definition trace {A} (m : Eff A) : list call := fst m.
Definition outcome {A} (m : Eff A) : result A := snd m.

(** ** The functions of the module *)

Section Program.
Variable w : World.

(** The two nested [for] loops of [fetch_hosted_zone_details]: one
    request per page, then [record_sets.append(...)] for every entry of
    the page.  A page whose request fails raises out of the loop. *)
Definition append_page (record_sets : list ResourceRecordSet.t)
    (page : list (gmap string pyval)) : list ResourceRecordSet.t :=
  fold_left
    (fun acc record_set => acc ++ [ResourceRecordSet.from_dict record_set])
    page record_sets.

Fixpoint paginate (zone_id : string) (n : nat)
    (page_iterator : list (result (list (gmap string pyval))))
    (record_sets : list ResourceRecordSet.t)
    : Eff (list ResourceRecordSet.t) :=
  match page_iterator with
  | [] => EffM.ret record_sets
  | page :: rest =>
      (let! entries :=
         EffM.request (ListResourceRecordSets zone_id n) page in
       paginate zone_id (S n) rest (append_page record_sets entries))%eff
  end.

(** [hosted_zone["Name"]] *)
Definition getitem (d : gmap string pyval) (k : string) : result pyval :=
  match d !! k with
  | Some v => Ok v
  | None => Raise (Exn "KeyError" (Py.repr k))
  end.

Definition fetch_hosted_zone_details (zone_id : string)
    : Eff HostedZoneDetails.t :=
  (let! hosted_zone :=
     EffM.request (GetHostedZone zone_id)
                  (route53_get_hosted_zone w zone_id) in
   let! name := EffM.pure (getitem hosted_zone "Name") in
   let hosted_zone_details :=
     HostedZoneDetails.mk zone_id name hosted_zone [] in
   let! record_sets :=
     paginate zone_id 0 (route53_list_resource_record_sets w zone_id) [] in
   EffM.ret
     (HostedZoneDetails.mk
        (HostedZoneDetails.id hosted_zone_details)
        (HostedZoneDetails.name hosted_zone_details)
        (HostedZoneDetails.config hosted_zone_details)
        record_sets))%eff.

(** The body of the loop of [create_backup_data]. *)
Definition rrs_dict (rrs : ResourceRecordSet.t) : gmap string pyval :=
  let d0 : gmap string pyval :=
    {[ "Name" := ResourceRecordSet.name rrs;
       "Type" := ResourceRecordSet.type rrs ]} in
  let d1 :=
    if Py.truthy (ResourceRecordSet.ttl rrs)
    then <["TTL" := ResourceRecordSet.ttl rrs]> d0 else d0 in
  let d2 :=
    if Py.truthy (ResourceRecordSet.resource_records rrs)
    then <["ResourceRecords" := ResourceRecordSet.resource_records rrs]> d1
    else d1 in
  if Py.truthy (ResourceRecordSet.alias_target rrs)
  then <["AliasTarget" := ResourceRecordSet.alias_target rrs]> d2
  else d2.

Definition record_sets_dicts (zone_details : HostedZoneDetails.t)
    : list (gmap string pyval) :=
  fold_left (fun acc rrs => acc ++ [rrs_dict rrs])
            (HostedZoneDetails.resource_record_sets zone_details) [].

Definition create_backup_data (zone_details : HostedZoneDetails.t)
    (metadata : BackupMetadata.t) : gmap string pyval :=
  {[ "metadata" := PDict (PStr <$> BackupMetadata.to_dict metadata);
     "hostedZone" := PDict (HostedZoneDetails.config zone_details);
     "resourceRecordSets" :=
       PList (PDict <$> record_sets_dicts zone_details) ]}.

Definition upload_to_s3 (data : gmap string pyval)
    (bucket_name s3_key : string) : Eff bool :=
  EffM.try_except
    (let! body := EffM.pure (json_dumps w (PDict data)) in
     do! EffM.request
           (PutObject bucket_name s3_key body "application/json" "AES256")
           (s3_put_object w bucket_name s3_key body
                          "application/json" "AES256") in
     EffM.ret true)%eff
    (fun _ => EffM.ret false).

(** [event.invoking_event.configuration_item.<field>] *)
Definition configuration_item_field (event : Event.AWSConfigRuleEvent)
    (field : Event.ConfigurationItem → result string) : result string :=
  rbind (Event.invoking_event event) (fun invoking_event =>
  rbind (Event.configuration_item invoking_event) field).

(** [event.invoking_event.message_type] *)
Definition event_message_type (event : Event.AWSConfigRuleEvent)
    : result string :=
  rbind (Event.invoking_event event) Event.message_type.

(** The arguments of the request are evaluated in the order they are
    written; the request is sent once all of them have a value. *)
Definition put_evaluations (event : Event.AWSConfigRuleEvent)
    (compliance annotation : string) : Eff unit :=
  (let! resource_type :=
     EffM.pure (configuration_item_field event Event.resource_type) in
   let! resource_id :=
     EffM.pure (configuration_item_field event Event.resource_id) in
   let! capture_time :=
     EffM.pure (configuration_item_field event
                  Event.configuration_item_capture_time) in
   let! result_token := EffM.pure (Event.result_token event) in
   let evaluations :=
     [ {| ComplianceResourceType := resource_type;
          ComplianceResourceId := resource_id;
          ComplianceType := compliance;
          OrderingTimestamp := capture_time;
          Annotation := annotation |} ] in
   EffM.request (PutEvaluations evaluations result_token)
                (config_put_evaluations w evaluations result_token))%eff.

End Program.

(** ** The handler *)

(** The two local variables of [handler] that are read after the [try]
    statement; [None] is a variable that has not been assigned yet. *)
Record locals := mkLocals {
  compliance : option string;
  annotation : option string }.

Definition unbound : locals := {| compliance := None; annotation := None |}.

(** Statements of the handler: they call the clients, may raise, and
    assign the locals; what was assigned before an exception stays. *)
Definition Stmt (A : Type) : Type := locals → list call * locals * result A.

Module StmtM.
Definition ret {A} (a : A) : Stmt A := fun ls => ([], ls, Ok a).
Definition bind {A B} (m : Stmt A) (k : A → Stmt B) : Stmt B :=
  fun ls =>
    match m ls with
    | (tr, ls', Ok a) => let '(tr', ls'', r) := k a ls' in (tr ++ tr', ls'', r)
    | (tr, ls', Raise e) => (tr, ls', Raise e)
    end.
Definition pure {A} (r : result A) : Stmt A := fun ls => ([], ls, r).
Definition lift {A} (m : Eff A) : Stmt A := fun ls => (fst m, ls, snd m).
Definition assign_compliance (v : string) : Stmt unit :=
  fun ls => ([], {| compliance := Some v; annotation := annotation ls |}, Ok tt).
Definition assign_annotation (v : string) : Stmt unit :=
  fun ls => ([], {| compliance := compliance ls; annotation := Some v |}, Ok tt).
Definition read (name : string) (var : locals → option string) : Stmt string :=
  fun ls =>
    match var ls with
    | Some v => ([], ls, Ok v)
    | None => ([], ls, Raise (Exn "UnboundLocalError" name))
    end.
Definition try_except {A} (m : Stmt A) (h : exn → Stmt A) : Stmt A :=
  fun ls =>
    match m ls with
    | (tr, ls', Ok a) => (tr, ls', Ok a)
    | (tr, ls', Raise e) => let '(tr', ls'', r) := h e ls' in (tr ++ tr', ls'', r)
    end.
(** run a function body from its entry *)
Definition run {A} (m : Stmt A) : Eff A :=
  let '(tr, _, r) := m unbound in (tr, r).
End StmtM.

Declare Scope stmt_scope.
Delimit Scope stmt_scope with stmt.
Notation "'let!' x ':=' m 'in' k" := (StmtM.bind m (fun x => k))
  (at level 10, x name, m at level 100, k at level 200) : stmt_scope.
Notation "'do!' m 'in' k" := (StmtM.bind m (fun _ => k))
  (at level 10, m at level 100, k at level 200) : stmt_scope.

(** The conditional expression that computes [trigger_type]. *)
Definition trigger_type_of (message_type : string) : string :=
  if String.eqb message_type "ConfigurationItemChangeNotification"
  then "change" else "creation".

(** The f-string that computes [s3_key]. *)
Definition s3_key_of (account_id normalized_name trigger_type timestamp : string)
    : string :=
  "route53-backup/" +:+ account_id +:+ "/" +:+ normalized_name +:+ "/"
    +:+ trigger_type +:+ "-" +:+ timestamp +:+ ".json".

(** [os.environ[k]] *)
Definition os_environ (w : World) (k : string) : result string :=
  match environ w !! k with
  | Some v => Ok v
  | None => Raise (Exn "KeyError" (Py.repr k))
  end.

Section Handler.
Variable w : World.
Variable event : Event.AWSConfigRuleEvent.

(** The body of the [try] statement.  Logging is not modelled. *)
Definition handler_try : Stmt unit :=
  (do! StmtM.assign_compliance "NON_COMPLIANT" in
   do! StmtM.assign_annotation EmptyString in
   let! hosted_zone_id :=
     StmtM.pure (configuration_item_field event Event.resource_id) in
   let! account_id :=
     StmtM.pure (configuration_item_field event Event.accountid) in
   let! message_type := StmtM.pure (event_message_type event) in
   let trigger_type := trigger_type_of message_type in
   let! zone_details :=
     StmtM.lift (fetch_hosted_zone_details w hosted_zone_id) in
   let! hosted_zone_name :=
     StmtM.pure (HostedZoneDetails.normalized_name zone_details) in
   let metadata :=
     BackupMetadata.mk account_id hosted_zone_id hosted_zone_name
                       trigger_type (utcnow w) (uuid4 w) in
   let backup_data := create_backup_data zone_details metadata in
   let! normalized_name :=
     StmtM.pure (HostedZoneDetails.normalized_name zone_details) in
   let s3_key :=
     s3_key_of account_id normalized_name trigger_type
               (BackupMetadata.timestamp metadata) in
   let! bucket_name := StmtM.pure (os_environ w "BACKUP_BUCKET_NAME") in
   let! success :=
     StmtM.lift (upload_to_s3 w backup_data bucket_name s3_key) in
   if success : bool then
     do! StmtM.assign_compliance "COMPLIANT" in
     StmtM.assign_annotation
       ("Successfully backed up hosted zone " +:+ hosted_zone_id)
   else
     StmtM.assign_annotation
       ("Failed to upload backup for hosted zone " +:+ hosted_zone_id))%stmt.

Definition handler_except (e : exn) : Stmt unit :=
  StmtM.assign_annotation ("Error processing hosted zone: " +:+ exn_str e)%string.

Definition handler_body : Stmt unit :=
  (do! StmtM.try_except handler_try handler_except in
   let! compliance := StmtM.read "compliance" compliance in
   let! annotation := StmtM.read "annotation" annotation in
   StmtM.lift (put_evaluations w event compliance annotation))%stmt.

Definition handler : Eff unit := StmtM.run handler_body.

End Handler.

(** ** Reading a trace *)

Definition is_put_evaluations (c : call) : bool :=
  match c with PutEvaluations _ _ => true | _ => false end.

Definition is_put_object (c : call) : bool :=
  match c with PutObject _ _ _ _ _ => true | _ => false end.

Definition is_route53 (c : call) : bool :=
  match c with
  | GetHostedZone _ | ListResourceRecordSets _ _ => true
  | _ => false
  end.

(** The evaluation reports that were sent, in order. *)
Definition reports (tr : list call) : list call :=
  List.filter is_put_evaluations tr.

(** The storage writes that were attempted, in order. *)
Definition writes (tr : list call) : list call :=
  List.filter is_put_object tr.

(** Some storage write of the trace was accepted by the store. *)
Definition uploaded (w : World) (tr : list call) : bool :=
  existsb
    (fun c =>
       match c with
       | PutObject b k body ct sse => is_ok (s3_put_object w b k body ct sse)
       | _ => false
       end) tr.

(** [k] copies of the terminator of a fully qualified zone name. *)
Fixpoint dots (k : nat) : string :=
  match k with
  | O => EmptyString
  | S k' => String "." (dots k')
  end.

(** An optional field of a record set that is absent ([None]) or an empty
    container. *)
Definition absent_or_empty (v : pyval) : Prop :=
  v = PNone ∨ v = PList [] ∨ v = PDict ∅.

(** The verdict that the [if success:] statement assigns. *)
Definition final_compliance (success : bool) : string :=
  if success then "COMPLIANT" else "NON_COMPLIANT".

Definition final_annotation (success : bool) (hosted_zone_id : string) : string :=
  if success
  then "Successfully backed up hosted zone " +:+ hosted_zone_id
  else "Failed to upload backup for hosted zone " +:+ hosted_zone_id.

Definition verdict_after (success : bool) (hosted_zone_id : string) : locals :=
  {| compliance := Some (final_compliance success);
     annotation := Some (final_annotation success hosted_zone_id) |}.

(** The locals as the first two statements of the [try] body leave them. *)
Definition default_verdict : locals :=
  {| compliance := Some "NON_COMPLIANT"; annotation := Some EmptyString |}.

(** The annotation that the [except] clause assigns. *)
Definition error_annotation (e : exn) : string :=
  "Error processing hosted zone: " +:+ exn_str e.

(** The runs of the [try] body: every step up to the upload returned, or a
    step raised before the zone was fetched, or a step raised after the
    requests of the zone fetcher. *)
Inductive try_run (w : World) (event : Event.AWSConfigRuleEvent)
    : list call * locals * result unit → Prop :=
| try_run_upload rid acc mt trf zd nn bucket tru success :
    configuration_item_field event Event.resource_id = Ok rid →
    configuration_item_field event Event.accountid = Ok acc →
    event_message_type event = Ok mt →
    fetch_hosted_zone_details w rid = (trf, Ok zd) →
    HostedZoneDetails.normalized_name zd = Ok nn →
    os_environ w "BACKUP_BUCKET_NAME" = Ok bucket →
    upload_to_s3 w
      (create_backup_data zd
         (BackupMetadata.mk acc rid nn (trigger_type_of mt)
                            (utcnow w) (uuid4 w)))
      bucket (s3_key_of acc nn (trigger_type_of mt) (utcnow w))
      = (tru, Ok success) →
    try_run w event (trf ++ tru, verdict_after success rid, Ok tt)
| try_run_raise_early e :
    try_run w event ([], default_verdict, Raise e)
| try_run_raise_fetched rid e :
    configuration_item_field event Event.resource_id = Ok rid →
    try_run w event
      (trace (fetch_hosted_zone_details w rid), default_verdict, Raise e).

(** The requests [tr] of the [try] statement followed by the report. *)
Definition then_report (tr : list call) (report : Eff unit) : Eff unit :=
  (tr ++ trace report, outcome report).

(** The runs of the handler. *)
Inductive handler_run (w : World) (event : Event.AWSConfigRuleEvent)
    : Eff unit → Prop :=
| handler_run_upload rid acc mt trf zd nn bucket tru success :
    configuration_item_field event Event.resource_id = Ok rid →
    configuration_item_field event Event.accountid = Ok acc →
    event_message_type event = Ok mt →
    fetch_hosted_zone_details w rid = (trf, Ok zd) →
    HostedZoneDetails.normalized_name zd = Ok nn →
    os_environ w "BACKUP_BUCKET_NAME" = Ok bucket →
    upload_to_s3 w
      (create_backup_data zd
         (BackupMetadata.mk acc rid nn (trigger_type_of mt)
                            (utcnow w) (uuid4 w)))
      bucket (s3_key_of acc nn (trigger_type_of mt) (utcnow w))
      = (tru, Ok success) →
    handler_run w event
      (then_report (trf ++ tru)
         (put_evaluations w event (final_compliance success)
                          (final_annotation success rid)))
| handler_run_raise_early e :
    handler_run w event
      (then_report []
         (put_evaluations w event "NON_COMPLIANT" (error_annotation e)))
| handler_run_raise_fetched rid e :
    configuration_item_field event Event.resource_id = Ok rid →
    handler_run w event
      (then_report (trace (fetch_hosted_zone_details w rid))
         (put_evaluations w event "NON_COMPLIANT" (error_annotation e))).

(** What a request of the handler says about the hosted zone [zid]: the
    zone it asks for, the zone recorded in the metadata of the document it
    writes, the zone named in the annotation it reports. *)
Definition names_zone (w : World) (zid : string) (c : call) : Prop :=
  match c with
  | GetHostedZone id => id = zid
  | ListResourceRecordSets id _ => id = zid
  | PutObject _ _ body _ _ =>
      ∃ zd md,
        json_dumps w (PDict (create_backup_data zd md)) = Ok body
        ∧ HostedZoneDetails.id zd = zid
        ∧ BackupMetadata.to_dict md !! "hostedZoneId" = Some zid
  | PutEvaluations evs _ =>
      Forall
        (fun ev =>
           Annotation ev = final_annotation true zid
           ∨ Annotation ev = final_annotation false zid
           ∨ ∃ e, Annotation ev = error_annotation e)
        evs
  end.

(** A request to the DNS service about the zone [zid]. *)
Definition is_route53_for (zid : string) (c : call) : bool :=
  match c with
  | GetHostedZone id | ListResourceRecordSets id _ => String.eqb id zid
  | _ => false
  end.

(** What a storage write of the handler is made of: the bucket named by
    the environment, the key computed from the account id, the normalized
    zone name, the trigger type and the timestamp, and the rendering of the
    document built from the fetched zone and the metadata. *)
Definition backup_write (w : World) (event : Event.AWSConfigRuleEvent)
    (c : call) : Prop :=
  match c with
  | PutObject bucket key body content_type encryption =>
      ∃ rid acc mt zd nn,
        configuration_item_field event Event.resource_id = Ok rid
        ∧ configuration_item_field event Event.accountid = Ok acc
        ∧ event_message_type event = Ok mt
        ∧ outcome (fetch_hosted_zone_details w rid) = Ok zd
        ∧ HostedZoneDetails.normalized_name zd = Ok nn
        ∧ os_environ w "BACKUP_BUCKET_NAME" = Ok bucket
        ∧ key = s3_key_of acc nn (trigger_type_of mt) (utcnow w)
        ∧ json_dumps w
            (PDict (create_backup_data zd
                      (BackupMetadata.mk acc rid nn (trigger_type_of mt)
                                         (utcnow w) (uuid4 w))))
          = Ok body
        ∧ content_type = "application/json"
        ∧ encryption = "AES256"
  | _ => True
  end.

(** ** Sample inputs *)

Module Sample.
Definition record_a : gmap string pyval :=
  {[ "Name" := PStr "www.example.com.";
     "Type" := PStr "A";
     "TTL" := PInt 300;
     "ResourceRecords" := PList [PDict {[ "Value" := PStr "192.0.2.1" ]}] ]}.

Definition record_txt : gmap string pyval :=
  {[ "Name" := PStr "example.com.";
     "Type" := PStr "TXT";
     "TTL" := PInt 0 ]}.

Definition hosted_zone : gmap string pyval :=
  {[ "Id" := PStr "/hostedzone/Z123ABC";
     "Name" := PStr "example.com." ]}.

(** A world in which every service answers. *)
Definition world : World :=
  {| route53_get_hosted_zone := fun _ => Ok hosted_zone;
     route53_list_resource_record_sets :=
       fun _ => [Ok [record_a; record_txt]; Ok []];
     s3_put_object := fun _ _ _ _ _ => Ok tt;
     config_put_evaluations := fun _ _ => Ok tt;
     json_dumps := fun _ => Ok "{}";
     environ := {[ "BACKUP_BUCKET_NAME" := "backups" ]};
     utcnow := "20250101T000000Z";
     uuid4 := "00000000-0000-4000-8000-000000000000" |}.

(** The same world with a store that refuses the write. *)
Definition world_store_down : World :=
  {| route53_get_hosted_zone := route53_get_hosted_zone world;
     route53_list_resource_record_sets :=
       route53_list_resource_record_sets world;
     s3_put_object :=
       fun _ _ _ _ _ => Raise (Exn "ClientError" "AccessDenied");
     config_put_evaluations := config_put_evaluations world;
     json_dumps := json_dumps world;
     environ := environ world;
     utcnow := utcnow world;
     uuid4 := uuid4 world |}.

Definition item : Event.ConfigurationItem :=
  {| Event.resource_id := Ok "/hostedzone/Z123ABC";
     Event.resource_type := Ok "AWS::Route53::HostedZone";
     Event.accountid := Ok "111122223333";
     Event.configuration_item_capture_time := Ok "2025-01-01T00:00:00.000Z" |}.

(** A change notification for a hosted zone. *)
Definition event : Event.AWSConfigRuleEvent :=
  {| Event.invoking_event :=
       Ok {| Event.message_type := Ok "ConfigurationItemChangeNotification";
             Event.configuration_item := Ok item |};
     Event.result_token := Ok "token" |}.

(** A periodic notification: it carries no configuration item. *)
Definition scheduled_event : Event.AWSConfigRuleEvent :=
  {| Event.invoking_event :=
       Ok {| Event.message_type := Ok "ScheduledNotification";
             Event.configuration_item :=
               Raise (Exn "AttributeError" "configuration_item") |};
     Event.result_token := Ok "token" |}.

(** A change notification whose account id cannot be read. *)
Definition event_without_account : Event.AWSConfigRuleEvent :=
  {| Event.invoking_event :=
       Ok {| Event.message_type := Ok "ConfigurationItemChangeNotification";
             Event.configuration_item :=
               Ok {| Event.resource_id := Event.resource_id item;
                     Event.resource_type := Event.resource_type item;
                     Event.accountid :=
                       Raise (Exn "KeyError" "'awsAccountId'");
                     Event.configuration_item_capture_time :=
                       Event.configuration_item_capture_time item |} |};
     Event.result_token := Ok "token" |}.

(** A change notification whose result token cannot be read. *)
Definition event_without_token : Event.AWSConfigRuleEvent :=
  {| Event.invoking_event := Event.invoking_event event;
     Event.result_token := Raise (Exn "KeyError" "'resultToken'") |}.

Definition zone (name : string) : HostedZoneDetails.t :=
  HostedZoneDetails.mk "Z123ABC" (PStr name) hosted_zone [].

(** A record set told apart by its TTL. *)
Definition numbered (n : Z) : gmap string pyval :=
  {[ "Name" := PStr "host.example.com.";
     "Type" := PStr "A";
     "TTL" := PInt n ]}.

(** Four pages of 3, 2, 0 and 5 record sets, unsorted and with
    repetitions. *)
Definition pages : list (list (gmap string pyval)) :=
  [ [numbered 7; numbered 1; numbered 7];
    [numbered 5; numbered 2];
    [];
    [numbered 9; numbered 1; numbered 4; numbered 3; numbered 8] ].

Definition paged_world : World :=
  {| route53_get_hosted_zone := route53_get_hosted_zone world;
     route53_list_resource_record_sets := fun _ => Ok <$> pages;
     s3_put_object := s3_put_object world;
     config_put_evaluations := config_put_evaluations world;
     json_dumps := json_dumps world;
     environ := environ world;
     utcnow := utcnow world;
     uuid4 := uuid4 world |}.

(** A record set with no TTL, no values and no alias target. *)
Definition bare_record : ResourceRecordSet.t :=
  ResourceRecordSet.mk (PStr "example.com.") (PStr "NS")
                       PNone (PList []) PNone.

(** A record set whose TTL is zero. *)
Definition zero_ttl_record : ResourceRecordSet.t :=
  ResourceRecordSet.mk (PStr "example.com.") (PStr "TXT")
                       (PInt 0)
                       (PList [PDict {[ "Value" := PStr "v=spf1 -all" ]}])
                       PNone.
End Sample.

(** ** Further vocabulary *)

(** The keys that [create_backup_data] can write for a record set. *)
Definition record_keys : list string :=
  ["Name"; "Type"; "TTL"; "ResourceRecords"; "AliasTarget"].

(** The requests for the pages [start], ..., [start + count - 1] of the
    listing of a zone. *)
Definition list_requests (zone_id : string) (start count : nat) : list call :=
  ListResourceRecordSets zone_id <$> seq start count.

(** ** Worlds with a fault *)

Module Faults.
Definition throttled : exn := Exn "ClientError" "Throttling".

(** The zone cannot be read. *)
Definition no_zone : World :=
  {| route53_get_hosted_zone :=
       fun _ => Raise (Exn "ClientError" "NoSuchHostedZone");
     route53_list_resource_record_sets :=
       route53_list_resource_record_sets Sample.world;
     s3_put_object := s3_put_object Sample.world;
     config_put_evaluations := config_put_evaluations Sample.world;
     json_dumps := json_dumps Sample.world;
     environ := environ Sample.world;
     utcnow := utcnow Sample.world;
     uuid4 := uuid4 Sample.world |}.

(** The zone has no name. *)
Definition nameless_zone : World :=
  {| route53_get_hosted_zone :=
       fun _ => Ok {[ "Id" := PStr "/hostedzone/Z123ABC" ]};
     route53_list_resource_record_sets :=
       route53_list_resource_record_sets Sample.world;
     s3_put_object := s3_put_object Sample.world;
     config_put_evaluations := config_put_evaluations Sample.world;
     json_dumps := json_dumps Sample.world;
     environ := environ Sample.world;
     utcnow := utcnow Sample.world;
     uuid4 := uuid4 Sample.world |}.

(** The request for the third page of the listing fails. *)
Definition page_down : World :=
  {| route53_get_hosted_zone := route53_get_hosted_zone Sample.world;
     route53_list_resource_record_sets :=
       fun _ =>
         (Ok <$> [[Sample.record_a]; [Sample.record_txt]])
           ++ Raise throttled :: [Ok [Sample.record_a]];
     s3_put_object := s3_put_object Sample.world;
     config_put_evaluations := config_put_evaluations Sample.world;
     json_dumps := json_dumps Sample.world;
     environ := environ Sample.world;
     utcnow := utcnow Sample.world;
     uuid4 := uuid4 Sample.world |}.

(** The destination bucket is not configured. *)
Definition no_bucket : World :=
  {| route53_get_hosted_zone := route53_get_hosted_zone Sample.world;
     route53_list_resource_record_sets :=
       route53_list_resource_record_sets Sample.world;
     s3_put_object := s3_put_object Sample.world;
     config_put_evaluations := config_put_evaluations Sample.world;
     json_dumps := json_dumps Sample.world;
     environ := ∅;
     utcnow := utcnow Sample.world;
     uuid4 := uuid4 Sample.world |}.

(** The document cannot be rendered. *)
Definition no_rendering : World :=
  {| route53_get_hosted_zone := route53_get_hosted_zone Sample.world;
     route53_list_resource_record_sets :=
       route53_list_resource_record_sets Sample.world;
     s3_put_object := s3_put_object Sample.world;
     config_put_evaluations := config_put_evaluations Sample.world;
     json_dumps := fun _ => Raise (Exn "TypeError" "not JSON serializable");
     environ := environ Sample.world;
     utcnow := utcnow Sample.world;
     uuid4 := uuid4 Sample.world |}.

(** The evaluation service refuses the report. *)
Definition no_reporter : World :=
  {| route53_get_hosted_zone := route53_get_hosted_zone Sample.world;
     route53_list_resource_record_sets :=
       route53_list_resource_record_sets Sample.world;
     s3_put_object := s3_put_object Sample.world;
     config_put_evaluations :=
       fun _ _ => Raise (Exn "ClientError" "InvalidResultToken");
     json_dumps := json_dumps Sample.world;
     environ := environ Sample.world;
     utcnow := utcnow Sample.world;
     uuid4 := uuid4 Sample.world |}.

(** A weighted record set: it carries routing fields besides the five
    the backup knows. *)
Definition weighted_record : gmap string pyval :=
  {[ "Name" := PStr "www.example.com.";
     "Type" := PStr "A";
     "TTL" := PInt 60;
     "ResourceRecords" := PList [PDict {[ "Value" := PStr "192.0.2.1" ]}];
     "SetIdentifier" := PStr "blue";
     "Weight" := PInt 10 ]}.
End Faults.

(** * Properties *)

(** ** Strings *)

Section Strings.

Lemma string_app_cons (c : ascii) (s t : string) :
  String c s +:+ t = String c (s +:+ t).
Proof. reflexivity. Qed.

Lemma string_app_nil_l (t : string) : EmptyString +:+ t = t.
Proof. reflexivity. Qed.

Lemma string_length_app (s t : string) :
  String.length (s +:+ t) = String.length s + String.length t.
Proof.
  induction s as [|c s IH]; [done |].
  rewrite string_app_cons. simpl. by rewrite IH.
Qed.

Lemma string_app_inv_head (p s t : string) : p +:+ s = p +:+ t → s = t.
Proof.
  induction p as [|c p IH]; [done |].
  rewrite !string_app_cons. intros [= H]. auto.
Qed.

Lemma string_app_inv_tail (s t r : string) : s +:+ r = t +:+ r → s = t.
Proof.
  revert t. induction s as [|c s IH]; intros [|d t] H.
  - done.
  - apply (f_equal String.length) in H.
    rewrite !string_length_app in H. simpl in H. lia.
  - apply (f_equal String.length) in H.
    rewrite !string_length_app in H. simpl in H. lia.
  - rewrite !string_app_cons in H. injection H as -> H.
    f_equal. by apply IH.
Qed.

End Strings.

Section Rstrip.

Lemma rstrip_no_trailing_dot (s : string) :
  Py.endswith_char (Py.rstrip s ".") "." = false.
Proof.
  induction s as [|c s IH]; simpl; [done |].
  destruct (Py.rstrip s ".") as [|c' r] eqn:Hr; simpl.
  - destruct (Ascii.eqb c ".") eqn:Hc; simpl; [done | by rewrite Hc].
  - exact IH.
Qed.

Lemma rstrip_fixed (s : string) :
  Py.endswith_char s "." = false → Py.rstrip s "." = s.
Proof.
  induction s as [|c s IH]; simpl; [done |].
  destruct s as [|c' s'].
  - simpl. by intros ->.
  - intros H. by rewrite (IH H).
Qed.

Lemma rstrip_idempotent (s : string) :
  Py.rstrip (Py.rstrip s ".") "." = Py.rstrip s ".".
Proof. apply rstrip_fixed, rstrip_no_trailing_dot. Qed.

Lemma rstrip_removes_dots (s : string) :
  ∃ k, s = Py.rstrip s "." +:+ dots k.
Proof.
  induction s as [|c s [k IH]]; simpl.
  - by exists 0.
  - destruct (Py.rstrip s ".") as [|c' r] eqn:Hr; simpl.
    + rewrite string_app_nil_l in IH.
      destruct (Ascii.eqb c ".") eqn:Hc; simpl.
      * apply Ascii.eqb_eq in Hc as ->. exists (S k).
        rewrite string_app_nil_l. simpl. by f_equal.
      * exists k. rewrite string_app_cons, string_app_nil_l. by f_equal.
    + exists k. rewrite string_app_cons. by f_equal.
Qed.

Lemma rstrip_app_dot (s : string) :
  Py.rstrip (s +:+ ".") "." = Py.rstrip s ".".
Proof.
  induction s as [|c s IH]; [done |].
  rewrite string_app_cons. simpl. by rewrite IH.
Qed.

Lemma rstrip_one_dot (s : string) :
  Py.endswith_char s "." = false → Py.rstrip (s +:+ ".") "." = s.
Proof. intros H. rewrite rstrip_app_dot. by apply rstrip_fixed. Qed.

End Rstrip.

(** ** Loops that append *)

Lemma fold_left_append {A B} (f : A → B) (l : list A) (acc : list B) :
  fold_left (fun acc x => acc ++ [f x]) l acc = acc ++ (f <$> l).
Proof.
  revert acc. induction l as [|x l IH]; intros acc; simpl.
  - by rewrite app_nil_r.
  - rewrite IH. by rewrite <- app_assoc.
Qed.

Lemma append_page_spec (record_sets : list ResourceRecordSet.t)
    (page : list (gmap string pyval)) :
  append_page record_sets page
  = record_sets ++ (ResourceRecordSet.from_dict <$> page).
Proof. apply fold_left_append. Qed.

Lemma record_sets_dicts_spec (zone_details : HostedZoneDetails.t) :
  record_sets_dicts zone_details
  = rrs_dict <$> HostedZoneDetails.resource_record_sets zone_details.
Proof. unfold record_sets_dicts. by rewrite fold_left_append. Qed.

(** ** The zone fetcher *)

Section Fetch.
Variable w : World.

Lemma paginate_cons zone_id entries rest n acc :
  paginate zone_id n (Ok entries :: rest) acc
  = (ListResourceRecordSets zone_id n
       :: trace (paginate zone_id (S n) rest (append_page acc entries)),
     outcome (paginate zone_id (S n) rest (append_page acc entries))).
Proof.
  simpl. unfold EffM.bind, EffM.request.
  by destruct (paginate zone_id (S n) rest (append_page acc entries)).
Qed.

Lemma paginate_all_pages zone_id (pages : list (list (gmap string pyval))) n acc :
  outcome (paginate zone_id n (Ok <$> pages) acc)
  = Ok (acc ++ (ResourceRecordSet.from_dict <$> concat pages)).
Proof.
  revert n acc. induction pages as [|page rest IH]; intros n acc.
  - simpl. by rewrite app_nil_r.
  - rewrite fmap_cons, paginate_cons. unfold outcome at 1. simpl.
    rewrite IH, append_page_spec, fmap_app. by rewrite <- app_assoc.
Qed.

Lemma paginate_route53_for zone_id pages n acc :
  forallb (is_route53_for zone_id) (trace (paginate zone_id n pages acc))
  = true.
Proof.
  revert n acc. induction pages as [|page rest IH]; intros n acc; [done |].
  destruct page as [entries|e].
  - rewrite paginate_cons. simpl. by rewrite String.eqb_refl, IH.
  - simpl. by rewrite String.eqb_refl.
Qed.

Lemma fetch_route53_for zone_id :
  forallb (is_route53_for zone_id)
          (trace (fetch_hosted_zone_details w zone_id)) = true.
Proof.
  unfold fetch_hosted_zone_details, EffM.request, EffM.pure, EffM.bind.
  destruct (route53_get_hosted_zone w zone_id) as [hz|e];
    [|simpl; by rewrite String.eqb_refl].
  destruct (getitem hz "Name") as [nm|e];
    [|simpl; by rewrite String.eqb_refl].
  pose proof (paginate_route53_for zone_id
                (route53_list_resource_record_sets w zone_id) 0 []) as H.
  destruct (paginate zone_id 0 (route53_list_resource_record_sets w zone_id) [])
    as [tr [rs|e]]; simpl in *; rewrite ?app_nil_r, String.eqb_refl; done.
Qed.

Lemma route53_for_route53 zid tr :
  forallb (is_route53_for zid) tr = true → forallb is_route53 tr = true.
Proof.
  induction tr as [|c tr IH]; simpl; [done |].
  intros [Hc Htr]%andb_prop. rewrite (IH Htr). by destruct c.
Qed.

Lemma fetch_route53 zone_id :
  forallb is_route53 (trace (fetch_hosted_zone_details w zone_id)) = true.
Proof. eapply route53_for_route53, fetch_route53_for. Qed.

Lemma fetch_route53_eq zone_id tr r :
  fetch_hosted_zone_details w zone_id = (tr, r) →
  forallb is_route53 tr = true.
Proof. intros H. pose proof (fetch_route53 zone_id) as Hr. by rewrite H in Hr. Qed.

Lemma fetch_zone_id zone_id tr zd :
  fetch_hosted_zone_details w zone_id = (tr, Ok zd) →
  HostedZoneDetails.id zd = zone_id.
Proof.
  unfold fetch_hosted_zone_details, EffM.request, EffM.pure, EffM.bind,
    EffM.ret.
  destruct (route53_get_hosted_zone w zone_id) as [hz|e]; [|done].
  destruct (getitem hz "Name") as [nm|e]; [|done].
  destruct (paginate zone_id 0 (route53_list_resource_record_sets w zone_id) [])
    as [trp [rs|e]]; [|done].
  by intros [= _ <-].
Qed.

End Fetch.

(** ** The storage boundary *)

Lemma upload_to_s3_cases (w : World) data bucket key :
  (∃ e, json_dumps w (PDict data) = Raise e
        ∧ upload_to_s3 w data bucket key = ([], Ok false))
  ∨ (∃ body,
        json_dumps w (PDict data) = Ok body
        ∧ s3_put_object w bucket key body "application/json" "AES256" = Ok tt
        ∧ upload_to_s3 w data bucket key
          = ([PutObject bucket key body "application/json" "AES256"], Ok true))
  ∨ (∃ body e,
        json_dumps w (PDict data) = Ok body
        ∧ s3_put_object w bucket key body "application/json" "AES256" = Raise e
        ∧ upload_to_s3 w data bucket key
          = ([PutObject bucket key body "application/json" "AES256"], Ok false)).
Proof.
  unfold upload_to_s3, EffM.try_except, EffM.bind, EffM.pure, EffM.request,
    EffM.ret.
  destruct (json_dumps w (PDict data)) as [body|e]; simpl.
  - destruct (s3_put_object w bucket key body "application/json" "AES256")
      as [[]|e] eqn:Hput; simpl.
    + right; left. by exists body.
    + right; right. by exists body, e.
  - left. by exists e.
Qed.

(** ** The handler *)

Section HandlerRuns.
Variable w : World.
Variable event : Event.AWSConfigRuleEvent.

Local Ltac raised_early := apply try_run_raise_early.
Local Ltac raised_fetched H :=
  rewrite ?app_nil_r;
  match goal with
  | Hf : fetch_hosted_zone_details _ ?rid = (?tr, _) |- _ =>
      replace tr with (trace (fetch_hosted_zone_details w rid))
        by (by rewrite Hf);
      by apply try_run_raise_fetched
  end.

Lemma handler_try_run (ls : locals) : try_run w event (handler_try w event ls).
Proof.
  unfold handler_try, StmtM.bind, StmtM.pure, StmtM.lift,
    StmtM.assign_compliance, StmtM.assign_annotation. simpl.
  destruct (configuration_item_field event Event.resource_id)
    as [rid|e] eqn:Hrid; [|raised_early].
  destruct (configuration_item_field event Event.accountid)
    as [acc|e] eqn:Hacc; [|raised_early].
  destruct (event_message_type event) as [mt|e] eqn:Hmt; [|raised_early].
  destruct (fetch_hosted_zone_details w rid) as [trf [zd|e]] eqn:Hfetch;
    simpl in *; [|raised_fetched Hrid].
  destruct (HostedZoneDetails.normalized_name zd) as [nn|e] eqn:Hnn;
    simpl; [|raised_fetched Hrid].
  destruct (os_environ w "BACKUP_BUCKET_NAME") as [bucket|e] eqn:Henv;
    simpl; [|raised_fetched Hrid].
  destruct (upload_to_s3 w _ bucket _) as [tru r] eqn:Hup.
  assert (∃ success, r = Ok success) as [success ->].
  { destruct (upload_to_s3_cases w
                (create_backup_data zd
                   (BackupMetadata.mk acc rid nn (trigger_type_of mt)
                      (utcnow w) (uuid4 w)))
                bucket (s3_key_of acc nn (trigger_type_of mt) (utcnow w)))
      as [(? & ? & H)|[(? & ? & ? & H)|(? & ? & ? & ? & H)]];
      rewrite H in Hup; injection Hup as <- <-; eauto. }
  pose proof (try_run_upload w event rid acc mt trf zd nn bucket tru success
                Hrid Hacc Hmt Hfetch Hnn Henv Hup) as Hrun.
  destruct success; simpl; rewrite ?app_nil_r; exact Hrun.
Qed.

(** The handler is the [try] statement followed by the report of the
    verdict that the locals hold. *)
Lemma handler_runs : handler_run w event (handler w event).
Proof.
  unfold handler, StmtM.run, handler_body, StmtM.bind, StmtM.try_except,
    handler_except, StmtM.assign_annotation, StmtM.read, StmtM.lift.
  pose proof (handler_try_run unbound) as Hrun.
  destruct (handler_try w event unbound) as [[tr ls] r].
  inversion Hrun; subst; simpl; rewrite ?app_nil_r.
  - eapply handler_run_upload; eauto.
  - apply handler_run_raise_early.
  - by apply handler_run_raise_fetched.
Qed.

End HandlerRuns.

(** ** The evaluation reporter *)

Section Reporter.
Variable w : World.
Variable event : Event.AWSConfigRuleEvent.

Lemma put_evaluations_sent rt rid ct tok c a :
  configuration_item_field event Event.resource_type = Ok rt →
  configuration_item_field event Event.resource_id = Ok rid →
  configuration_item_field event Event.configuration_item_capture_time
    = Ok ct →
  Event.result_token event = Ok tok →
  put_evaluations w event c a
  = ([PutEvaluations [mkEvaluation rt rid c ct a] tok],
     config_put_evaluations w [mkEvaluation rt rid c ct a] tok).
Proof.
  intros Hrt Hrid Hct Htok. unfold put_evaluations, EffM.bind, EffM.pure,
    EffM.request.
  by rewrite Hrt, Hrid, Hct, Htok.
Qed.

Lemma put_evaluations_cases c a :
  (∃ e, put_evaluations w event c a = ([], Raise e))
  ∨ (∃ rt rid ct tok,
        configuration_item_field event Event.resource_type = Ok rt
        ∧ configuration_item_field event Event.resource_id = Ok rid
        ∧ configuration_item_field event
            Event.configuration_item_capture_time = Ok ct
        ∧ Event.result_token event = Ok tok).
Proof.
  unfold put_evaluations, EffM.bind, EffM.pure, EffM.request.
  destruct (configuration_item_field event Event.resource_type)
    as [rt|e]; [|by left; exists e].
  destruct (configuration_item_field event Event.resource_id)
    as [rid|e]; [|by left; exists e].
  destruct (configuration_item_field event
              Event.configuration_item_capture_time)
    as [ct|e]; [|by left; exists e].
  destruct (Event.result_token event) as [tok|e]; [|by left; exists e].
  right. by exists rt, rid, ct, tok.
Qed.

End Reporter.

(** ** Traces *)

Section Traces.
Variable w : World.

Lemma reports_app tr tr' : reports (tr ++ tr') = reports tr ++ reports tr'.
Proof. apply List.filter_app. Qed.

Lemma uploaded_app tr tr' :
  uploaded w (tr ++ tr') = uploaded w tr || uploaded w tr'.
Proof. apply existsb_app. Qed.

Lemma route53_no_reports tr : forallb is_route53 tr = true → reports tr = [].
Proof.
  induction tr as [|c tr IH]; simpl; [done |].
  intros [Hc Htr]%andb_prop. destruct c; try done; simpl; auto.
Qed.

Lemma route53_not_uploaded tr :
  forallb is_route53 tr = true → uploaded w tr = false.
Proof.
  induction tr as [|c tr IH]; simpl; [done |].
  intros [Hc Htr]%andb_prop. destruct c; try done; simpl; auto.
Qed.

Lemma route53_no_writes tr c :
  forallb is_route53 tr = true → In c tr → is_route53 c = true.
Proof. intros H Hin. by apply (proj1 (forallb_forall _ _) H). Qed.

Lemma upload_trace data bucket key tru success :
  upload_to_s3 w data bucket key = (tru, Ok success) →
  reports tru = []
  ∧ uploaded w tru = success
  ∧ (∀ c, In c tru →
       ∃ body,
         c = PutObject bucket key body "application/json" "AES256"
         ∧ json_dumps w (PDict data) = Ok body
         ∧ is_ok (s3_put_object w bucket key body
                                "application/json" "AES256") = success).
Proof.
  intros Hup.
  destruct (upload_to_s3_cases w data bucket key)
    as [(e & Hd & H)|[(body & Hd & Hput & H)|(body & e & Hd & Hput & H)]];
    rewrite H in Hup; injection Hup as <- <-; simpl; rewrite ?Hput; simpl;
    (split; [done|split; [done|]]).
  - intros c [].
  - intros c [<-|[]]. exists body. by rewrite Hput.
  - intros c [<-|[]]. exists body. by rewrite Hput.
Qed.

End Traces.

(** ** The zone name *)

(** C5 (as the code has it). For every zone whose name is the string [s],
    the normalized name is [s] without its trailing terminators: all of
    them are removed and nothing else, so exactly one is stripped when the
    name ends with exactly one, the name is unchanged when it does not end
    with one, and normalizing a normalized name changes nothing. *)
Theorem normalized_name_strips_trailing_dots
    (zone : HostedZoneDetails.t) (s : string) :
  HostedZoneDetails.name zone = PStr s →
  ∃ n,
    HostedZoneDetails.normalized_name zone = Ok n
    ∧ (∃ k, s = n +:+ dots k)
    ∧ Py.endswith_char n "." = false
    ∧ (Py.endswith_char s "." = false → n = s)
    ∧ (∀ t, s = t +:+ "." → Py.endswith_char t "." = false → n = t)
    ∧ (∀ zone', HostedZoneDetails.name zone' = PStr n →
                HostedZoneDetails.normalized_name zone' = Ok n).
Proof.
  intros Hname. exists (Py.rstrip s "."). unfold HostedZoneDetails.normalized_name.
  rewrite Hname. repeat split.
  - apply rstrip_removes_dots.
  - apply rstrip_no_trailing_dot.
  - apply rstrip_fixed.
  - intros t -> Ht. by apply rstrip_one_dot.
  - intros zone' ->. by rewrite rstrip_idempotent.
Qed.

Lemma normalized_name_strips_trailing_dots_witness :
  ∃ n,
    HostedZoneDetails.normalized_name (Sample.zone "example.com.") = Ok n
    ∧ (∃ k, "example.com." = n +:+ dots k)
    ∧ Py.endswith_char n "." = false
    ∧ (Py.endswith_char "example.com." "." = false → n = "example.com.")
    ∧ (∀ t, "example.com." = t +:+ "." → Py.endswith_char t "." = false → n = t)
    ∧ (∀ zone', HostedZoneDetails.name zone' = PStr n →
                HostedZoneDetails.normalized_name zone' = Ok n).
Proof.
  apply (normalized_name_strips_trailing_dots
           (Sample.zone "example.com.") "example.com.").
  reflexivity.
Defined.

(** C5 (as stated, refuted). A name that ends with two terminators loses
    both of them, not exactly one. *)
Lemma normalized_name_strips_more_than_one :
  HostedZoneDetails.normalized_name (Sample.zone "example.com..")
    = Ok "example.com"
  ∧ HostedZoneDetails.normalized_name (Sample.zone "example.com..")
    ≠ Ok "example.com.".
Proof. split; [reflexivity | discriminate]. Qed.

(** ** The trigger type *)

Lemma trigger_type_of_change (mt : string) :
  trigger_type_of mt = "change" ↔ mt = "ConfigurationItemChangeNotification".
Proof.
  unfold trigger_type_of.
  destruct (String.eqb mt "ConfigurationItemChangeNotification") eqn:H.
  - apply String.eqb_eq in H. by split.
  - apply String.eqb_neq in H. by split.
Qed.

Lemma trigger_type_of_creation (mt : string) :
  trigger_type_of mt = "creation" ↔ mt ≠ "ConfigurationItemChangeNotification".
Proof.
  unfold trigger_type_of.
  destruct (String.eqb mt "ConfigurationItemChangeNotification") eqn:H.
  - apply String.eqb_eq in H. by split.
  - apply String.eqb_neq in H. by split.
Qed.

(** ** The storage key *)

Section StorageKey.

Lemma s3_key_of_account_id a a' z t ts :
  s3_key_of a z t ts = s3_key_of a' z t ts → a = a'.
Proof.
  unfold s3_key_of. intros H.
  apply string_app_inv_head in H. by apply string_app_inv_tail in H.
Qed.

Lemma s3_key_of_zone_name a z z' t ts :
  s3_key_of a z t ts = s3_key_of a z' t ts → z = z'.
Proof.
  unfold s3_key_of. intros H.
  do 3 apply string_app_inv_head in H. by apply string_app_inv_tail in H.
Qed.

Lemma s3_key_of_trigger_type a z t t' ts :
  s3_key_of a z t ts = s3_key_of a z t' ts → t = t'.
Proof.
  unfold s3_key_of. intros H.
  do 5 apply string_app_inv_head in H. by apply string_app_inv_tail in H.
Qed.

Lemma s3_key_of_timestamp a z t ts ts' :
  s3_key_of a z t ts = s3_key_of a z t ts' → ts = ts'.
Proof.
  unfold s3_key_of. intros H.
  do 7 apply string_app_inv_head in H. by apply string_app_inv_tail in H.
Qed.

End StorageKey.

(** ** The backup document *)

Section Document.

Lemma rrs_dict_lookup (rrs : ResourceRecordSet.t) (k : string) :
  rrs_dict rrs !! k =
    if decide (k = "AliasTarget") then
      if Py.truthy (ResourceRecordSet.alias_target rrs)
      then Some (ResourceRecordSet.alias_target rrs) else None
    else if decide (k = "ResourceRecords") then
      if Py.truthy (ResourceRecordSet.resource_records rrs)
      then Some (ResourceRecordSet.resource_records rrs) else None
    else if decide (k = "TTL") then
      if Py.truthy (ResourceRecordSet.ttl rrs)
      then Some (ResourceRecordSet.ttl rrs) else None
    else if decide (k = "Name") then Some (ResourceRecordSet.name rrs)
    else if decide (k = "Type") then Some (ResourceRecordSet.type rrs)
    else None.
Proof.
  unfold rrs_dict.
  destruct (Py.truthy (ResourceRecordSet.alias_target rrs)),
    (Py.truthy (ResourceRecordSet.resource_records rrs)),
    (Py.truthy (ResourceRecordSet.ttl rrs));
    repeat case_decide; simplify_map_eq; done.
Qed.

Lemma rrs_dict_ttl (rrs : ResourceRecordSet.t) :
  rrs_dict rrs !! "TTL" =
    if Py.truthy (ResourceRecordSet.ttl rrs)
    then Some (ResourceRecordSet.ttl rrs) else None.
Proof. by rewrite rrs_dict_lookup. Qed.

Lemma rrs_dict_resource_records (rrs : ResourceRecordSet.t) :
  rrs_dict rrs !! "ResourceRecords" =
    if Py.truthy (ResourceRecordSet.resource_records rrs)
    then Some (ResourceRecordSet.resource_records rrs) else None.
Proof. by rewrite rrs_dict_lookup. Qed.

Lemma rrs_dict_alias_target (rrs : ResourceRecordSet.t) :
  rrs_dict rrs !! "AliasTarget" =
    if Py.truthy (ResourceRecordSet.alias_target rrs)
    then Some (ResourceRecordSet.alias_target rrs) else None.
Proof. by rewrite rrs_dict_lookup. Qed.

Lemma absent_or_empty_falsy (v : pyval) :
  absent_or_empty v → Py.truthy v = false.
Proof. by intros [->|[->| ->]]. Qed.

End Document.

(** ** What the handler sends *)

Section HandlerTrace.
Variable w : World.
Variable event : Event.AWSConfigRuleEvent.

Lemma trace_then_report tr (m : Eff unit) :
  trace (then_report tr m) = tr ++ trace m.
Proof. reflexivity. Qed.

Lemma outcome_then_report tr (m : Eff unit) :
  outcome (then_report tr m) = outcome m.
Proof. reflexivity. Qed.

Lemma Forall_route53 (P : call → Prop) tr :
  forallb is_route53 tr = true →
  (∀ c, is_route53 c = true → P c) →
  Forall P tr.
Proof.
  intros H HP. apply List.Forall_forall. intros c Hin.
  apply HP. by apply (proj1 (forallb_forall _ _) H).
Qed.

Lemma put_evaluations_trace c a :
  trace (put_evaluations w event c a) = []
  ∨ ∃ rt rid ct tok,
      configuration_item_field event Event.resource_type = Ok rt
      ∧ configuration_item_field event Event.resource_id = Ok rid
      ∧ configuration_item_field event
          Event.configuration_item_capture_time = Ok ct
      ∧ Event.result_token event = Ok tok
      ∧ trace (put_evaluations w event c a)
        = [PutEvaluations [mkEvaluation rt rid c ct a] tok].
Proof.
  destruct (put_evaluations_cases w event c a)
    as [[e H]|(rt & rid & ct & tok & Hrt & Hrid & Hct & Htok)].
  - left. by rewrite H.
  - right. exists rt, rid, ct, tok.
    by rewrite (put_evaluations_sent w event rt rid ct tok c a).
Qed.

Lemma put_evaluations_not_uploaded c a :
  uploaded w (trace (put_evaluations w event c a)) = false.
Proof.
  destruct (put_evaluations_trace c a) as [->|(? & ? & ? & ? & _ & _ & _ & _ & ->)];
    done.
Qed.

(** Every storage write of the handler is the write of the backup. *)
Lemma handler_writes : Forall (backup_write w event) (trace (handler w event)).
Proof.
  destruct (handler_runs w event)
    as [rid acc mt trf zd nn bucket tru success
          Hrid Hacc Hmt Hfetch Hnn Henv Hup | e | rid e Hrid];
    unfold then_report, trace at 1; simpl;
    repeat (apply List.Forall_app; split).
  - apply Forall_route53; [|by intros []].
    pose proof (fetch_route53 w rid) as H. by rewrite Hfetch in H.
  - apply List.Forall_forall. intros c Hin.
    destruct (upload_trace w _ _ _ _ _ Hup) as (_ & _ & Hcalls).
    destruct (Hcalls c Hin) as (body & -> & Hdumps & _). simpl.
    exists rid, acc, mt, zd, nn. by rewrite Hfetch.
  - destruct (put_evaluations_trace (final_compliance success)
                (final_annotation success rid))
      as [->|(? & ? & ? & ? & _ & _ & _ & _ & ->)]; by repeat constructor.
  - destruct (put_evaluations_trace "NON_COMPLIANT" (error_annotation e))
      as [->|(? & ? & ? & ? & _ & _ & _ & _ & ->)]; by repeat constructor.
  - apply Forall_route53; [apply fetch_route53 | by intros []].
  - destruct (put_evaluations_trace "NON_COMPLIANT" (error_annotation e))
      as [->|(? & ? & ? & ? & _ & _ & _ & _ & ->)]; by repeat constructor.
Qed.

Lemma Forall_route53_for (zid : string) tr :
  forallb (is_route53_for zid) tr = true → Forall (names_zone w zid) tr.
Proof.
  intros H. apply List.Forall_forall. intros c Hin.
  pose proof (proj1 (forallb_forall _ _) H c Hin) as Hc.
  destruct c; simpl in *; try done; by apply String.eqb_eq.
Qed.

(** The zone the handler asks for, records and names is the resource id
    of the event as it is. *)
Lemma handler_names_zone (rid : string) :
  configuration_item_field event Event.resource_id = Ok rid →
  Forall (names_zone w rid) (trace (handler w event)).
Proof.
  intros Hraw.
  destruct (handler_runs w event)
    as [rid' acc mt trf zd nn bucket tru success
          Hrid Hacc Hmt Hfetch Hnn Henv Hup | e | rid' e Hrid];
    unfold then_report, trace at 1; simpl;
    try (rewrite Hraw in Hrid; injection Hrid as <-);
    repeat (apply List.Forall_app; split).
  - apply Forall_route53_for.
    pose proof (fetch_route53_for w rid) as H. by rewrite Hfetch in H.
  - apply List.Forall_forall. intros c Hin.
    destruct (upload_trace w _ _ _ _ _ Hup) as (_ & _ & Hcalls).
    destruct (Hcalls c Hin) as (body & -> & Hdumps & _). simpl.
    eexists zd, _. split; [exact Hdumps|].
    split; [by eapply fetch_zone_id | done].
  - destruct (put_evaluations_trace (final_compliance success)
                (final_annotation success rid))
      as [->|(? & ? & ? & ? & _ & _ & _ & _ & ->)]; [done|].
    apply List.Forall_cons; [|apply List.Forall_nil].
    apply List.Forall_cons; [|apply List.Forall_nil].
    destruct success; simpl; auto.
  - destruct (put_evaluations_trace "NON_COMPLIANT" (error_annotation e))
      as [->|(? & ? & ? & ? & _ & _ & _ & _ & ->)]; [done|].
    apply List.Forall_cons; [|apply List.Forall_nil].
    apply List.Forall_cons; [|apply List.Forall_nil].
    simpl. eauto.
  - apply Forall_route53_for, fetch_route53_for.
  - destruct (put_evaluations_trace "NON_COMPLIANT" (error_annotation e))
      as [->|(? & ? & ? & ? & _ & _ & _ & _ & ->)]; [done|].
    apply List.Forall_cons; [|apply List.Forall_nil].
    apply List.Forall_cons; [|apply List.Forall_nil].
    simpl. eauto.
Qed.

End HandlerTrace.

(** * Main results *)

(** ** Exactly one report *)

(** C1 (as the code has it). Whenever the four event fields that the
    report echoes (resource type, resource id, capture time, result token)
    can be read, the handler sends exactly one evaluation report, in every
    world: on normal completion, after a storage failure, and after an
    exception in any step from the extraction of the account id and of the
    message type through the storage write. *)
Theorem handler_reports_exactly_once
    (w : World) (event : Event.AWSConfigRuleEvent) (rt rid ct tok : string) :
  configuration_item_field event Event.resource_type = Ok rt →
  configuration_item_field event Event.resource_id = Ok rid →
  configuration_item_field event Event.configuration_item_capture_time = Ok ct →
  Event.result_token event = Ok tok →
  ∃ c a,
    reports (trace (handler w event))
    = [PutEvaluations [mkEvaluation rt rid c ct a] tok].
Proof.
  intros Hrt Hrid Hct Htok.
  destruct (handler_runs w event)
    as [rid' acc mt trf zd nn bucket tru success
          Hrid' Hacc Hmt Hfetch Hnn Henv Hup | e | rid' e Hrid'];
    rewrite (put_evaluations_sent w event rt rid ct tok) by done;
    unfold then_report, trace; cbn [fst];
    rewrite !reports_app; change (reports [PutEvaluations ?e ?t])
      with [PutEvaluations e t].
  - rewrite (route53_no_reports _ (fetch_route53_eq w _ _ _ Hfetch)).
    destruct (upload_trace w _ _ _ _ _ Hup) as (-> & _ & _). simpl. eauto.
  - eauto.
  - pose proof (fetch_route53 w rid') as Hroute. unfold trace in Hroute.
    rewrite (route53_no_reports _ Hroute). simpl. eauto.
Qed.

Lemma handler_reports_exactly_once_witness :
  ∃ c a,
    reports (trace (handler Sample.world Sample.event_without_account))
    = [PutEvaluations
         [mkEvaluation "AWS::Route53::HostedZone" "/hostedzone/Z123ABC" c
                       "2025-01-01T00:00:00.000Z" a] "token"].
Proof.
  apply (handler_reports_exactly_once
           Sample.world Sample.event_without_account);
    reflexivity.
Defined.

(** C1 (as stated, refuted). A periodic notification has no configuration
    item: the extraction of the resource id raises inside the [try]
    statement, and raises again when the report is put together, so no
    report is sent and the exception leaves the handler. *)
Lemma handler_report_not_sent :
  reports (trace (handler Sample.world Sample.scheduled_event)) = []
  ∧ outcome (handler Sample.world Sample.scheduled_event)
    = Raise (Exn "AttributeError" "configuration_item").
Proof. split; reflexivity. Qed.

(** ** The zone identifier *)

(** C2 (the code departs from it). For the resource id
    ["/hostedzone/Z123ABC"], [ConfigItem.hosted_zone_id] is ["Z123ABC"],
    but the handler never takes the last path segment: in every world, the
    zone it asks for, the zone its metadata records and the zone its
    annotation names are the resource id with its prefix. *)
Theorem handler_passes_raw_resource_id (w : World) :
  ConfigItem.hosted_zone_id
    (ConfigItem.mk "/hostedzone/Z123ABC" "AWS::Route53::HostedZone"
                   "resourcediscovered") = "Z123ABC"
  ∧ Forall (names_zone w "/hostedzone/Z123ABC") (trace (handler w Sample.event))
  ∧ trace (handler Sample.world Sample.event)
    = [ GetHostedZone "/hostedzone/Z123ABC";
        ListResourceRecordSets "/hostedzone/Z123ABC" 0;
        ListResourceRecordSets "/hostedzone/Z123ABC" 1;
        PutObject "backups"
          "route53-backup/111122223333/example.com/change-20250101T000000Z.json"
          "{}" "application/json" "AES256";
        PutEvaluations
          [mkEvaluation "AWS::Route53::HostedZone" "/hostedzone/Z123ABC"
             "COMPLIANT" "2025-01-01T00:00:00.000Z"
             "Successfully backed up hosted zone /hostedzone/Z123ABC"]
          "token" ].
Proof.
  split; [reflexivity|]. split; [|reflexivity].
  by apply handler_names_zone.
Qed.

(** ** The verdict *)

(** C3. The [try] body starts by setting the locals to [NON_COMPLIANT] and
    the empty annotation, whatever they were, and whatever step raises,
    that is what they still hold.
    A report says [COMPLIANT], with the non-empty success annotation,
    exactly when a storage write of the run was accepted; in every other
    run it says [NON_COMPLIANT]. *)
Theorem verdict_follows_storage_write
    (w : World) (event : Event.AWSConfigRuleEvent) :
  (∀ ls, handler_try w event ls
         = handler_try w event
             {| compliance := Some "NON_COMPLIANT";
                annotation := Some EmptyString |})
  ∧ (∀ ls tr ls' e,
     handler_try w event ls = (tr, ls', Raise e) →
     ls' = {| compliance := Some "NON_COMPLIANT";
              annotation := Some EmptyString |})
  ∧ (∀ evs tok,
       In (PutEvaluations evs tok) (trace (handler w event)) →
       ∃ ev,
         evs = [ev]
         ∧ if uploaded w (trace (handler w event))
           then ComplianceType ev = "COMPLIANT"
                ∧ Annotation ev ≠ EmptyString
                ∧ ∃ rid,
                    configuration_item_field event Event.resource_id = Ok rid
                    ∧ Annotation ev
                      = "Successfully backed up hosted zone " +:+ rid
           else ComplianceType ev = "NON_COMPLIANT").
Proof.
  split; [reflexivity|]. split.
  - intros ls tr ls' e H. pose proof (handler_try_run w event ls) as Hrun.
    rewrite H in Hrun. by inversion Hrun.
  - intros evs tok Hin.
    destruct (handler_runs w event)
      as [rid acc mt trf zd nn bucket tru success
            Hrid Hacc Hmt Hfetch Hnn Henv Hup | e | rid e Hrid];
      rewrite trace_then_report in Hin |- *;
      rewrite !uploaded_app, ?put_evaluations_not_uploaded, ?orb_false_r;
      rewrite ?in_app_iff in Hin.
    + pose proof (fetch_route53_eq w _ _ _ Hfetch) as Hroute.
      rewrite (route53_not_uploaded w _ Hroute). simpl.
      destruct (upload_trace w _ _ _ _ _ Hup) as (_ & -> & Hcalls).
      destruct Hin as [[Hin|Hin]|Hin].
      * by apply (route53_no_writes _ _ Hroute) in Hin.
      * by destruct (Hcalls _ Hin) as (? & ? & _).
      * destruct (put_evaluations_trace w event (final_compliance success)
                    (final_annotation success rid))
          as [Hnil|(rt & rid' & ct & tok' & _ & _ & _ & _ & Htr)];
          [by rewrite Hnil in Hin|].
        rewrite Htr in Hin. destruct Hin as [[= <- <-]|[]].
        eexists. split; [done|]. destruct success; simpl; [|done].
        repeat split; [done|]. by exists rid.
    + simpl. destruct Hin as [[]|Hin].
      destruct (put_evaluations_trace w event "NON_COMPLIANT"
                  (error_annotation e))
        as [Hnil|(rt & rid' & ct & tok' & _ & _ & _ & _ & Htr)];
        [by rewrite Hnil in Hin|].
      rewrite Htr in Hin. destruct Hin as [[= <- <-]|[]]. by eexists.
    + rewrite (route53_not_uploaded w _ (fetch_route53 w rid)). simpl.
      destruct Hin as [Hin|Hin];
        [by apply (route53_no_writes _ _ (fetch_route53 w rid)) in Hin|].
      destruct (put_evaluations_trace w event "NON_COMPLIANT"
                  (error_annotation e))
        as [Hnil|(rt & rid' & ct & tok' & _ & _ & _ & _ & Htr)];
        [by rewrite Hnil in Hin|].
      rewrite Htr in Hin. destruct Hin as [[= <- <-]|[]]. by eexists.
Qed.

Lemma verdict_follows_storage_write_witness :
  ∃ ev,
    [mkEvaluation "AWS::Route53::HostedZone" "/hostedzone/Z123ABC"
       "NON_COMPLIANT" "2025-01-01T00:00:00.000Z"
       "Failed to upload backup for hosted zone /hostedzone/Z123ABC"] = [ev]
    ∧ if uploaded Sample.world_store_down
           (trace (handler Sample.world_store_down Sample.event))
      then ComplianceType ev = "COMPLIANT"
           ∧ Annotation ev ≠ EmptyString
           ∧ ∃ rid,
               configuration_item_field Sample.event Event.resource_id = Ok rid
               ∧ Annotation ev = "Successfully backed up hosted zone " +:+ rid
      else ComplianceType ev = "NON_COMPLIANT".
Proof.
  apply (proj2 (proj2 (verdict_follows_storage_write
                         Sample.world_store_down Sample.event)) _ "token").
  vm_compute. do 4 right. left. reflexivity.
Defined.

(** ** The storage boundary *)

(** C4 (as the code has it). When the store raises on the write of a
    run, [upload_to_s3] returns [False] instead of raising (it never
    raises).  When the fields that the report echoes can be read, the
    handler then sends exactly one report, [NON_COMPLIANT], whose
    annotation is the fixed text that the upload of the backup of the zone
    failed (the text of the exception is not in it), and the handler
    returns what the evaluation service answers to that report: the
    exception of the store never leaves it. *)
Theorem storage_failure_is_reported
    (w : World) (event : Event.AWSConfigRuleEvent)
    (bucket key body content_type encryption : string) (e : exn)
    (rt ct tok : string) :
  In (PutObject bucket key body content_type encryption)
     (trace (handler w event)) →
  s3_put_object w bucket key body content_type encryption = Raise e →
  configuration_item_field event Event.resource_type = Ok rt →
  configuration_item_field event Event.configuration_item_capture_time = Ok ct →
  Event.result_token event = Ok tok →
  (∀ data b k, ∃ tr success, upload_to_s3 w data b k = (tr, Ok success))
  ∧ (∀ data,
       json_dumps w (PDict data) = Ok body →
       upload_to_s3 w data bucket key
       = ([PutObject bucket key body content_type encryption], Ok false))
  ∧ ∃ rid,
      configuration_item_field event Event.resource_id = Ok rid
      ∧ reports (trace (handler w event))
        = [PutEvaluations
             [mkEvaluation rt rid "NON_COMPLIANT" ct
                ("Failed to upload backup for hosted zone " +:+ rid)] tok]
      ∧ outcome (handler w event)
        = config_put_evaluations w
            [mkEvaluation rt rid "NON_COMPLIANT" ct
               ("Failed to upload backup for hosted zone " +:+ rid)] tok.
Proof.
  intros Hin Hput Hrt Hct Htok.
  assert (∀ data b k, ∃ tr success, upload_to_s3 w data b k = (tr, Ok success))
    as Hboundary.
  { intros data b k.
    destruct (upload_to_s3_cases w data b k)
      as [(? & _ & ->)|[(? & _ & _ & ->)|(? & ? & _ & _ & ->)]]; eauto. }
  split; [exact Hboundary|].
  destruct (handler_runs w event)
    as [rid acc mt trf zd nn bucket' tru success
          Hrid Hacc Hmt Hfetch Hnn Henv Hup | e' | rid e' Hrid];
    rewrite trace_then_report, ?outcome_then_report in Hin |- *;
    rewrite ?in_app_iff in Hin.
  - pose proof (fetch_route53_eq w _ _ _ Hfetch) as Hroute.
    destruct (upload_trace w _ _ _ _ _ Hup) as (Hnone & _ & Hcalls).
    destruct Hin as [[Hin|Hin]|Hin].
    + by apply (route53_no_writes _ _ Hroute) in Hin.
    + destruct (Hcalls _ Hin) as (body' & [= -> -> -> -> ->] & Hdumps & Hok).
      rewrite Hput in Hok. simpl in Hok. subst success.
      split.
      { intros data Hd.
        destruct (upload_to_s3_cases w data bucket'
                    (s3_key_of acc nn (trigger_type_of mt) (utcnow w)))
          as [(? & Hd' & _)|[(? & Hd' & Hput' & _)|(? & ? & Hd' & _ & ->)]];
          rewrite Hd in Hd'; try done.
        - injection Hd' as <-. by rewrite Hput in Hput'.
        - by injection Hd' as <-. }
      exists rid. split; [done|].
      rewrite (put_evaluations_sent w event rt rid ct tok) by done.
      unfold trace, outcome; cbn [fst snd].
      by rewrite !reports_app, (route53_no_reports _ Hroute), Hnone.
    + destruct (put_evaluations_trace w event (final_compliance success)
                  (final_annotation success rid))
        as [Hnil|(? & ? & ? & ? & _ & _ & _ & _ & Htr)];
        [by rewrite Hnil in Hin | rewrite Htr in Hin; by destruct Hin as [|[]]].
  - destruct Hin as [[]|Hin].
    destruct (put_evaluations_trace w event "NON_COMPLIANT" (error_annotation e'))
      as [Hnil|(? & ? & ? & ? & _ & _ & _ & _ & Htr)];
      [by rewrite Hnil in Hin | rewrite Htr in Hin; by destruct Hin as [|[]]].
  - destruct Hin as [Hin|Hin];
      [by apply (route53_no_writes _ _ (fetch_route53 w rid)) in Hin|].
    destruct (put_evaluations_trace w event "NON_COMPLIANT" (error_annotation e'))
      as [Hnil|(? & ? & ? & ? & _ & _ & _ & _ & Htr)];
      [by rewrite Hnil in Hin | rewrite Htr in Hin; by destruct Hin as [|[]]].
Qed.

Lemma storage_failure_is_reported_witness :
  (∀ data b k,
     ∃ tr success, upload_to_s3 Sample.world_store_down data b k = (tr, Ok success))
  ∧ (∀ data,
       json_dumps Sample.world_store_down (PDict data) = Ok "{}" →
       upload_to_s3 Sample.world_store_down data "backups"
         "route53-backup/111122223333/example.com/change-20250101T000000Z.json"
       = ([PutObject "backups"
             "route53-backup/111122223333/example.com/change-20250101T000000Z.json"
             "{}" "application/json" "AES256"], Ok false))
  ∧ ∃ rid,
      configuration_item_field Sample.event Event.resource_id = Ok rid
      ∧ reports (trace (handler Sample.world_store_down Sample.event))
        = [PutEvaluations
             [mkEvaluation "AWS::Route53::HostedZone" rid "NON_COMPLIANT"
                "2025-01-01T00:00:00.000Z"
                ("Failed to upload backup for hosted zone " +:+ rid)] "token"]
      ∧ outcome (handler Sample.world_store_down Sample.event)
        = config_put_evaluations Sample.world_store_down
            [mkEvaluation "AWS::Route53::HostedZone" rid "NON_COMPLIANT"
               "2025-01-01T00:00:00.000Z"
               ("Failed to upload backup for hosted zone " +:+ rid)] "token".
Proof.
  apply (storage_failure_is_reported Sample.world_store_down Sample.event
           "backups"
           "route53-backup/111122223333/example.com/change-20250101T000000Z.json"
           "{}" "application/json" "AES256"
           (Exn "ClientError" "AccessDenied")).
  - vm_compute. do 3 right. left. reflexivity.
  - reflexivity.
  - reflexivity.
  - reflexivity.
  - reflexivity.
Defined.

(** C4 (as stated, refuted). The store refuses the write with the reason
    [AccessDenied].  The report that follows carries the fixed annotation,
    in which the reason does not occur; and for an event whose result
    token cannot be read, no report is sent at all and the exception of
    the reporter leaves the handler. *)
Lemma storage_failure_reason_not_reported :
  s3_put_object Sample.world_store_down "backups"
    "route53-backup/111122223333/example.com/change-20250101T000000Z.json"
    "{}" "application/json" "AES256"
    = Raise (Exn "ClientError" "AccessDenied")
  ∧ reports (trace (handler Sample.world_store_down Sample.event))
    = [PutEvaluations
         [mkEvaluation "AWS::Route53::HostedZone" "/hostedzone/Z123ABC"
            "NON_COMPLIANT" "2025-01-01T00:00:00.000Z"
            "Failed to upload backup for hosted zone /hostedzone/Z123ABC"]
         "token"]
  ∧ Py.contains "Failed to upload backup for hosted zone /hostedzone/Z123ABC"
                "AccessDenied" = false
  ∧ writes (trace (handler Sample.world_store_down Sample.event_without_token))
    = [PutObject "backups"
         "route53-backup/111122223333/example.com/change-20250101T000000Z.json"
         "{}" "application/json" "AES256"]
  ∧ reports (trace (handler Sample.world_store_down
                            Sample.event_without_token)) = []
  ∧ outcome (handler Sample.world_store_down Sample.event_without_token)
    = Raise (Exn "KeyError" "'resultToken'").
Proof. repeat split; reflexivity. Qed.

(** ** The trigger type *)

(** C6. The trigger type of an event is ["change"] exactly when its
    message type is ["ConfigurationItemChangeNotification"], and
    ["creation"] for every other message type; it is the trigger type of
    the key and of the metadata of every backup the handler writes. *)
Theorem trigger_type_follows_message_type
    (w : World) (event : Event.AWSConfigRuleEvent) (mt : string) :
  event_message_type event = Ok mt →
  (trigger_type_of mt = "change" ↔ mt = "ConfigurationItemChangeNotification")
  ∧ (mt ≠ "ConfigurationItemChangeNotification" → trigger_type_of mt = "creation")
  ∧ (∀ bucket key body content_type encryption,
       In (PutObject bucket key body content_type encryption)
          (trace (handler w event)) →
       ∃ acc nn zd md,
         key = s3_key_of acc nn (trigger_type_of mt) (utcnow w)
         ∧ json_dumps w (PDict (create_backup_data zd md)) = Ok body
         ∧ BackupMetadata.to_dict md !! "triggerType"
           = Some (trigger_type_of mt)).
Proof.
  intros Hmt. split; [apply trigger_type_of_change|].
  split; [apply trigger_type_of_creation|].
  intros bucket key body content_type encryption Hin.
  pose proof (proj1 (List.Forall_forall _ _) (handler_writes w event) _ Hin)
    as (rid & acc & mt' & zd & nn & _ & _ & Hmt' & _ & _ & _ & -> & Hd & _).
  rewrite Hmt in Hmt'. injection Hmt' as <-.
  eexists acc, nn, zd, _. split; [done|]. split; [exact Hd|done].
Qed.

Lemma trigger_type_follows_message_type_witness :
  (trigger_type_of "ConfigurationItemChangeNotification" = "change"
     ↔ "ConfigurationItemChangeNotification"
       = "ConfigurationItemChangeNotification")
  ∧ ("ConfigurationItemChangeNotification"
       ≠ "ConfigurationItemChangeNotification" →
     trigger_type_of "ConfigurationItemChangeNotification" = "creation")
  ∧ (∀ bucket key body content_type encryption,
       In (PutObject bucket key body content_type encryption)
          (trace (handler Sample.world Sample.event)) →
       ∃ acc nn zd md,
         key = s3_key_of acc nn
                 (trigger_type_of "ConfigurationItemChangeNotification")
                 (utcnow Sample.world)
         ∧ json_dumps Sample.world (PDict (create_backup_data zd md)) = Ok body
         ∧ BackupMetadata.to_dict md !! "triggerType"
           = Some (trigger_type_of "ConfigurationItemChangeNotification")).
Proof.
  apply (trigger_type_follows_message_type Sample.world Sample.event).
  reflexivity.
Defined.

(** ** The storage key *)

(** C7. The key is the string
    [route53-backup/{accountId}/{normalizedZoneName}/{triggerType}-{timestamp}.json];
    equal inputs give equal keys; changing one of the four inputs and
    keeping the other three changes the key; and this is the key of every
    storage write of the handler, computed from the account id of the
    event, the normalized name of the fetched zone, the trigger type and
    the timestamp of the metadata. *)
Theorem s3_key_is_determined_by_its_inputs :
  (∀ a z t ts,
     s3_key_of a z t ts
     = "route53-backup/" +:+ a +:+ "/" +:+ z +:+ "/" +:+ t +:+ "-" +:+ ts
         +:+ ".json")
  ∧ (∀ a z t ts a' z' t' ts',
       a = a' → z = z' → t = t' → ts = ts' →
       s3_key_of a z t ts = s3_key_of a' z' t' ts')
  ∧ (∀ a a' z t ts, a ≠ a' → s3_key_of a z t ts ≠ s3_key_of a' z t ts)
  ∧ (∀ a z z' t ts, z ≠ z' → s3_key_of a z t ts ≠ s3_key_of a z' t ts)
  ∧ (∀ a z t t' ts, t ≠ t' → s3_key_of a z t ts ≠ s3_key_of a z t' ts)
  ∧ (∀ a z t ts ts', ts ≠ ts' → s3_key_of a z t ts ≠ s3_key_of a z t ts')
  ∧ (∀ w event, Forall (backup_write w event) (trace (handler w event))).
Proof.
  split; [done|]. split; [by intros; subst|].
  split; [intros a a' z t ts Hne H; by apply s3_key_of_account_id in H|].
  split; [intros a z z' t ts Hne H; by apply s3_key_of_zone_name in H|].
  split; [intros a z t t' ts Hne H; by apply s3_key_of_trigger_type in H|].
  split; [intros a z t ts ts' Hne H; by apply s3_key_of_timestamp in H|].
  apply handler_writes.
Qed.

Lemma s3_key_is_determined_by_its_inputs_witness :
  s3_key_of "111122223333" "example.com" "change" "20250101T000000Z"
  = "route53-backup/111122223333/example.com/change-20250101T000000Z.json"
  ∧ s3_key_of "111122223333" "example.com" "change" "20250101T000000Z"
    ≠ s3_key_of "444455556666" "example.com" "change" "20250101T000000Z"
  ∧ s3_key_of "111122223333" "example.com" "change" "20250101T000000Z"
    ≠ s3_key_of "111122223333" "example.org" "change" "20250101T000000Z"
  ∧ s3_key_of "111122223333" "example.com" "change" "20250101T000000Z"
    ≠ s3_key_of "111122223333" "example.com" "creation" "20250101T000000Z"
  ∧ s3_key_of "111122223333" "example.com" "change" "20250101T000000Z"
    ≠ s3_key_of "111122223333" "example.com" "change" "20250101T000001Z".
Proof.
  destruct s3_key_is_determined_by_its_inputs
    as (Hfmt & _ & Ha & Hz & Ht & Hts & _).
  split; [by rewrite Hfmt|].
  split; [by apply Ha|]. split; [by apply Hz|].
  split; [by apply Ht | by apply Hts].
Defined.

(** ** The records of the backup document *)

(** C8. The serialized record always has its name and its type.  An
    optional field (TTL, resource records, alias target) that is absent or
    an empty container is left out of it, and no field that is written is
    an empty value.  The rule is the builder's own: it holds for every
    record set, whatever built it, in particular for the empty list that
    [from_dict] puts where the listing has no resource records; and the
    document holds the records so serialized, in order. *)
Theorem rrs_dict_omits_empty_fields (rrs : ResourceRecordSet.t) :
  rrs_dict rrs !! "Name" = Some (ResourceRecordSet.name rrs)
  ∧ rrs_dict rrs !! "Type" = Some (ResourceRecordSet.type rrs)
  ∧ (absent_or_empty (ResourceRecordSet.ttl rrs) →
     rrs_dict rrs !! "TTL" = None)
  ∧ (absent_or_empty (ResourceRecordSet.resource_records rrs) →
     rrs_dict rrs !! "ResourceRecords" = None)
  ∧ (absent_or_empty (ResourceRecordSet.alias_target rrs) →
     rrs_dict rrs !! "AliasTarget" = None)
  ∧ (∀ k v, rrs_dict rrs !! k = Some v → k ≠ "Name" → k ≠ "Type" →
            ¬ absent_or_empty v)
  ∧ (∀ data : gmap string pyval,
       data !! "ResourceRecords" = None →
       ResourceRecordSet.resource_records (ResourceRecordSet.from_dict data)
         = PList []
       ∧ rrs_dict (ResourceRecordSet.from_dict data) !! "ResourceRecords"
         = None)
  ∧ (∀ zone_details metadata,
       create_backup_data zone_details metadata !! "resourceRecordSets"
       = Some (PList (PDict <$>
                 (rrs_dict <$>
                    HostedZoneDetails.resource_record_sets zone_details)))).
Proof.
  split; [by rewrite rrs_dict_lookup|].
  split; [by rewrite rrs_dict_lookup|].
  split; [intros H%absent_or_empty_falsy; by rewrite rrs_dict_ttl, H|].
  split; [intros H%absent_or_empty_falsy;
          by rewrite rrs_dict_resource_records, H|].
  split; [intros H%absent_or_empty_falsy; by rewrite rrs_dict_alias_target, H|].
  split.
  { intros k v Hk Hname Htype Hv%absent_or_empty_falsy.
    rewrite rrs_dict_lookup in Hk.
    repeat case_decide; try done;
      match type of Hk with
      | (if Py.truthy ?x then _ else _) = _ =>
          destruct (Py.truthy x) eqn:Hx; [|done];
          injection Hk as Hk; congruence
      end. }
  split.
  { intros data Hd.
    assert (ResourceRecordSet.resource_records
              (ResourceRecordSet.from_dict data) = PList []) as Hrr.
    { simpl. unfold Py.get. by rewrite Hd. }
    split; [exact Hrr|]. by rewrite rrs_dict_resource_records, Hrr. }
  intros zone_details metadata. unfold create_backup_data.
  by rewrite record_sets_dicts_spec.
Qed.

Lemma rrs_dict_omits_empty_fields_witness :
  rrs_dict Sample.bare_record !! "TTL" = None
  ∧ rrs_dict Sample.bare_record !! "ResourceRecords" = None
  ∧ rrs_dict Sample.bare_record !! "AliasTarget" = None
  ∧ rrs_dict Sample.bare_record
    = {[ "Name" := PStr "example.com."; "Type" := PStr "NS" ]}.
Proof.
  destruct (rrs_dict_omits_empty_fields Sample.bare_record)
    as (_ & _ & Httl & Hrr & Hat & _).
  split; [apply Httl; by left|].
  split; [apply Hrr; right; by left|].
  split; [apply Hat; by left|].
  reflexivity.
Defined.

(** C10. A record set whose TTL is present and equal to 0 is serialized
    without a TTL, exactly as the same record set with no TTL. *)
Theorem rrs_dict_drops_zero_ttl (rrs : ResourceRecordSet.t) :
  ResourceRecordSet.ttl rrs = PInt 0 →
  rrs_dict rrs !! "TTL" = None
  ∧ rrs_dict rrs
    = rrs_dict
        (ResourceRecordSet.mk
           (ResourceRecordSet.name rrs) (ResourceRecordSet.type rrs)
           PNone
           (ResourceRecordSet.resource_records rrs)
           (ResourceRecordSet.alias_target rrs)).
Proof.
  intros Httl. split.
  - by rewrite rrs_dict_ttl, Httl.
  - unfold rrs_dict. by rewrite Httl.
Qed.

Lemma rrs_dict_drops_zero_ttl_witness :
  rrs_dict Sample.zero_ttl_record !! "TTL" = None
  ∧ rrs_dict Sample.zero_ttl_record
    = rrs_dict
        (ResourceRecordSet.mk
           (ResourceRecordSet.name Sample.zero_ttl_record)
           (ResourceRecordSet.type Sample.zero_ttl_record)
           PNone
           (ResourceRecordSet.resource_records Sample.zero_ttl_record)
           (ResourceRecordSet.alias_target Sample.zero_ttl_record)).
Proof. apply (rrs_dict_drops_zero_ttl Sample.zero_ttl_record). reflexivity. Defined.

(** ** The pages of the listing *)

(** C9. When every page of the listing arrives, the record sets of the
    fetched zone are the entries of the pages, page after page and in the
    order of each page, none dropped, merged or moved: there are as many as
    the pages hold together, 10 for pages of 3, 2, 0 and 5 entries. *)
Theorem fetch_aggregates_pages_in_order
    (w : World) (zone_id : string) (hosted_zone : gmap string pyval)
    (name : pyval) (pages : list (list (gmap string pyval))) :
  route53_get_hosted_zone w zone_id = Ok hosted_zone →
  hosted_zone !! "Name" = Some name →
  route53_list_resource_record_sets w zone_id = Ok <$> pages →
  ∃ zone_details,
    outcome (fetch_hosted_zone_details w zone_id) = Ok zone_details
    ∧ HostedZoneDetails.resource_record_sets zone_details
      = ResourceRecordSet.from_dict <$> concat pages
    ∧ length (HostedZoneDetails.resource_record_sets zone_details)
      = sum_list (length <$> pages)
    ∧ (length <$> pages = [3; 2; 0; 5] →
       length (HostedZoneDetails.resource_record_sets zone_details) = 10).
Proof.
  intros Hzone Hname Hpages.
  pose proof (paginate_all_pages zone_id pages 0 []) as Hagg.
  unfold fetch_hosted_zone_details, EffM.bind, EffM.request, EffM.pure,
    EffM.ret, getitem.
  rewrite Hzone, Hname, Hpages.
  destruct (paginate zone_id 0 (Ok <$> pages) []) as [tr r].
  unfold outcome in Hagg. cbn [snd] in Hagg. subst r.
  eexists. split; [reflexivity|]. cbn [HostedZoneDetails.resource_record_sets].
  assert (length (ResourceRecordSet.from_dict <$> concat pages)
          = sum_list (length <$> pages)) as Hlen.
  { rewrite length_fmap. clear. induction pages as [|p ps IH]; [done|].
    simpl. by rewrite length_app, IH. }
  split; [done|]. split; [exact Hlen|].
  intros Hsizes. simpl in Hlen |- *. by rewrite Hlen, Hsizes.
Qed.

Lemma fetch_aggregates_pages_in_order_witness :
  ∃ zone_details,
    outcome (fetch_hosted_zone_details Sample.paged_world "Z123ABC")
      = Ok zone_details
    ∧ HostedZoneDetails.resource_record_sets zone_details
      = ResourceRecordSet.from_dict <$> concat Sample.pages
    ∧ length (HostedZoneDetails.resource_record_sets zone_details)
      = sum_list (length <$> Sample.pages)
    ∧ (length <$> Sample.pages = [3; 2; 0; 5] →
       length (HostedZoneDetails.resource_record_sets zone_details) = 10).
Proof.
  apply (fetch_aggregates_pages_in_order
           Sample.paged_world "Z123ABC" Sample.hosted_zone
           (PStr "example.com.") Sample.pages);
    reflexivity.
Defined.

(** * Further properties *)

(** ** The zone fetcher: requests and failures *)

Section FetchRequests.
Variable w : World.

Lemma paginate_pages_then zone_id (pages : list (list (gmap string pyval)))
    rest n acc :
  paginate zone_id n ((Ok <$> pages) ++ rest) acc
  = (list_requests zone_id n (length pages)
       ++ trace (paginate zone_id (n + length pages) rest
                   (acc ++ (ResourceRecordSet.from_dict <$> concat pages))),
     outcome (paginate zone_id (n + length pages) rest
                (acc ++ (ResourceRecordSet.from_dict <$> concat pages)))).
Proof.
  revert n acc. induction pages as [|page pages IH]; intros n acc.
  - simpl. rewrite Nat.add_0_r, app_nil_r.
    by destruct (paginate zone_id n rest acc).
  - rewrite fmap_cons, <- app_comm_cons, paginate_cons, IH.
    unfold trace, outcome; cbn [fst snd length concat].
    rewrite append_page_spec, fmap_app, <- app_assoc.
    by rewrite <- Nat.add_succ_comm.
Qed.

End FetchRequests.

Lemma fetch_all_pages
    (w : World) (zone_id : string) (hosted_zone : gmap string pyval)
    (name : pyval) (pages : list (list (gmap string pyval))) :
  route53_get_hosted_zone w zone_id = Ok hosted_zone →
  hosted_zone !! "Name" = Some name →
  route53_list_resource_record_sets w zone_id = Ok <$> pages →
  fetch_hosted_zone_details w zone_id
  = (GetHostedZone zone_id :: list_requests zone_id 0 (length pages),
     Ok (HostedZoneDetails.mk zone_id name hosted_zone
           (ResourceRecordSet.from_dict <$> concat pages))).
Proof.
  intros Hzone Hname Hpages.
  pose proof (paginate_pages_then zone_id pages [] 0 []) as Hpag.
  rewrite app_nil_r in Hpag.
  unfold fetch_hosted_zone_details, EffM.bind, EffM.request, EffM.pure,
    EffM.ret, getitem.
  rewrite Hzone, Hname, Hpages, Hpag. simpl. by rewrite !app_nil_r.
Qed.

Lemma fetch_failed_page
    (w : World) (zone_id : string) (hosted_zone : gmap string pyval)
    (name : pyval) (pages : list (list (gmap string pyval))) (e : exn)
    (rest : list (result (list (gmap string pyval)))) :
  route53_get_hosted_zone w zone_id = Ok hosted_zone →
  hosted_zone !! "Name" = Some name →
  route53_list_resource_record_sets w zone_id
    = (Ok <$> pages) ++ Raise e :: rest →
  fetch_hosted_zone_details w zone_id
  = (GetHostedZone zone_id :: list_requests zone_id 0 (S (length pages)),
     Raise e).
Proof.
  intros Hzone Hname Hpages.
  pose proof (paginate_pages_then zone_id pages (Raise e :: rest) 0 [])
    as Hpag.
  unfold fetch_hosted_zone_details, EffM.bind, EffM.request, EffM.pure,
    EffM.ret, getitem.
  rewrite Hzone, Hname, Hpages, Hpag. simpl.
  unfold list_requests. by rewrite seq_S, fmap_app.
Qed.

(** X1. When the zone and every page of its listing arrive, the fetcher
    sends one [get_hosted_zone] request and then one listing request per
    page, in order, and returns the zone with the id it was asked for, the
    name and the payload of the answer as they came, and the entries of
    the pages in order. *)
Theorem fetch_requests_every_page
    (w : World) (zone_id : string) (hosted_zone : gmap string pyval)
    (name : pyval) (pages : list (list (gmap string pyval))) :
  route53_get_hosted_zone w zone_id = Ok hosted_zone →
  hosted_zone !! "Name" = Some name →
  route53_list_resource_record_sets w zone_id = Ok <$> pages →
  fetch_hosted_zone_details w zone_id
  = (GetHostedZone zone_id :: list_requests zone_id 0 (length pages),
     Ok (HostedZoneDetails.mk zone_id name hosted_zone
           (ResourceRecordSet.from_dict <$> concat pages))).
Proof. apply fetch_all_pages. Qed.

Lemma fetch_requests_every_page_witness :
  fetch_hosted_zone_details Sample.paged_world "Z123ABC"
  = (GetHostedZone "Z123ABC"
       :: list_requests "Z123ABC" 0 (length Sample.pages),
     Ok (HostedZoneDetails.mk "Z123ABC" (PStr "example.com.")
           Sample.hosted_zone
           (ResourceRecordSet.from_dict <$> concat Sample.pages))).
Proof.
  apply (fetch_requests_every_page Sample.paged_world "Z123ABC"
           Sample.hosted_zone (PStr "example.com.") Sample.pages);
    reflexivity.
Defined.

(** X2. When the request for a page fails, the fetcher raises that
    failure: the pages before it were requested, the pages after it are
    never requested, and no zone is returned. *)
Theorem fetch_aborts_on_failed_page
    (w : World) (zone_id : string) (hosted_zone : gmap string pyval)
    (name : pyval) (pages : list (list (gmap string pyval))) (e : exn)
    (rest : list (result (list (gmap string pyval)))) :
  route53_get_hosted_zone w zone_id = Ok hosted_zone →
  hosted_zone !! "Name" = Some name →
  route53_list_resource_record_sets w zone_id
    = (Ok <$> pages) ++ Raise e :: rest →
  fetch_hosted_zone_details w zone_id
  = (GetHostedZone zone_id :: list_requests zone_id 0 (S (length pages)),
     Raise e).
Proof. apply fetch_failed_page. Qed.

Lemma fetch_aborts_on_failed_page_witness :
  fetch_hosted_zone_details Faults.page_down "Z123ABC"
  = (GetHostedZone "Z123ABC" :: list_requests "Z123ABC" 0 3,
     Raise Faults.throttled).
Proof.
  apply (fetch_aborts_on_failed_page Faults.page_down "Z123ABC"
           Sample.hosted_zone (PStr "example.com.")
           [[Sample.record_a]; [Sample.record_txt]] Faults.throttled
           [Ok [Sample.record_a]]);
    reflexivity.
Defined.

(** X3. When the zone cannot be read, because the request fails or
    because the answer has no name, the fetcher raises after its first
    request: the listing is never requested. *)
Theorem fetch_stops_without_zone (w : World) (zone_id : string) :
  (∀ e, route53_get_hosted_zone w zone_id = Raise e →
        fetch_hosted_zone_details w zone_id
        = ([GetHostedZone zone_id], Raise e))
  ∧ (∀ hosted_zone,
       route53_get_hosted_zone w zone_id = Ok hosted_zone →
       hosted_zone !! "Name" = None →
       ∃ e, exn_class e = "KeyError"
            ∧ fetch_hosted_zone_details w zone_id
              = ([GetHostedZone zone_id], Raise e)).
Proof.
  split.
  - intros e H. unfold fetch_hosted_zone_details, EffM.bind, EffM.request.
    by rewrite H.
  - intros hosted_zone H Hname. eexists. split; [|
      unfold fetch_hosted_zone_details, EffM.bind, EffM.request, EffM.pure,
        getitem; rewrite H, Hname; reflexivity].
    reflexivity.
Qed.

Lemma fetch_stops_without_zone_witness :
  fetch_hosted_zone_details Faults.no_zone "Z123ABC"
    = ([GetHostedZone "Z123ABC"], Raise (Exn "ClientError" "NoSuchHostedZone"))
  ∧ ∃ e, exn_class e = "KeyError"
         ∧ fetch_hosted_zone_details Faults.nameless_zone "Z123ABC"
           = ([GetHostedZone "Z123ABC"], Raise e).
Proof.
  split.
  - apply (proj1 (fetch_stops_without_zone Faults.no_zone "Z123ABC")).
    reflexivity.
  - apply (proj2 (fetch_stops_without_zone Faults.nameless_zone "Z123ABC")
             {[ "Id" := PStr "/hostedzone/Z123ABC" ]});
      reflexivity.
Defined.

(** ** Record sets: from the listing to the document *)

(** X4. Only the name, the type, the TTL, the resource records and the
    alias target of a listed record set reach the backup: whatever other
    entry the listing holds for it (a set identifier, a weight, a region)
    is not in the serialized record. *)
Theorem serialized_record_drops_other_keys
    (data : gmap string pyval) (k : string) :
  k ∉ record_keys →
  rrs_dict (ResourceRecordSet.from_dict data) !! k = None.
Proof.
  intros Hk. rewrite rrs_dict_lookup.
  unfold record_keys in Hk. rewrite !not_elem_of_cons in Hk.
  destruct Hk as (? & ? & ? & ? & ? & _).
  by repeat case_decide.
Qed.

Lemma serialized_record_drops_other_keys_witness :
  rrs_dict (ResourceRecordSet.from_dict Faults.weighted_record) !! "Weight"
  = None.
Proof.
  apply (serialized_record_drops_other_keys Faults.weighted_record "Weight").
  unfold record_keys. rewrite !not_elem_of_cons.
  repeat split; try discriminate. apply not_elem_of_nil.
Defined.

(** X5. A listed record set comes back unchanged from the builder when it
    has a name and a type, holds nothing but the five known entries, and
    none of its optional entries is an empty value. *)
Theorem serialized_record_round_trip (data : gmap string pyval) :
  is_Some (data !! "Name") →
  is_Some (data !! "Type") →
  (∀ k, is_Some (data !! k) → k ∈ record_keys) →
  (∀ k v, data !! k = Some v → k ≠ "Name" → k ≠ "Type" →
          Py.truthy v = true) →
  rrs_dict (ResourceRecordSet.from_dict data) = data.
Proof.
  intros [nm Hname] [ty Htype] Hkeys Htruthy.
  apply map_eq. intros k. rewrite rrs_dict_lookup. simpl. unfold Py.get.
  repeat case_decide; subst.
  - destruct (data !! "AliasTarget") as [v|] eqn:Hv; simpl; [|done].
    by rewrite (Htruthy "AliasTarget" v).
  - destruct (data !! "ResourceRecords") as [v|] eqn:Hv; simpl; [|done].
    by rewrite (Htruthy "ResourceRecords" v).
  - destruct (data !! "TTL") as [v|] eqn:Hv; simpl; [|done].
    by rewrite (Htruthy "TTL" v).
  - by rewrite Hname.
  - by rewrite Htype.
  - destruct (data !! k) as [v|] eqn:Hv; [|done].
    assert (k ∈ record_keys) as Hin by (apply Hkeys; eauto).
    unfold record_keys in Hin. rewrite !elem_of_cons in Hin.
    destruct Hin as [?|[?|[?|[?|[?|Hin]]]]]; try done.
    by apply elem_of_nil in Hin.
Qed.

Lemma serialized_record_round_trip_witness :
  rrs_dict (ResourceRecordSet.from_dict Sample.record_a) = Sample.record_a.
Proof.
  apply (serialized_record_round_trip Sample.record_a).
  - by eexists.
  - by eexists.
  - intros k Hk. unfold record_keys.
    destruct (decide (k = "Name")) as [->|?]; [set_solver|].
    destruct (decide (k = "Type")) as [->|?]; [set_solver|].
    destruct (decide (k = "TTL")) as [->|?]; [set_solver|].
    destruct (decide (k = "ResourceRecords")) as [->|?]; [set_solver|].
    exfalso. destruct Hk as [v Hv]. unfold Sample.record_a in Hv.
    by simplify_map_eq.
  - intros k v Hk Hname Htype.
    destruct (decide (k = "TTL")) as [->|?];
      [by injection Hk as <-|].
    destruct (decide (k = "ResourceRecords")) as [->|?];
      [by injection Hk as <-|].
    unfold Sample.record_a in Hk. by simplify_map_eq.
Defined.

(** X6. A listed record set without a name or without a type is written
    with the empty string in its place: these two entries are never left
    out. *)
Theorem serialized_record_defaults_name_and_type (data : gmap string pyval) :
  (data !! "Name" = None →
   rrs_dict (ResourceRecordSet.from_dict data) !! "Name"
   = Some (PStr EmptyString))
  ∧ (data !! "Type" = None →
     rrs_dict (ResourceRecordSet.from_dict data) !! "Type"
     = Some (PStr EmptyString)).
Proof.
  split; intros H; rewrite rrs_dict_lookup; simpl; unfold Py.get;
    by rewrite H.
Qed.

Lemma serialized_record_defaults_name_and_type_witness :
  rrs_dict (ResourceRecordSet.from_dict ∅) !! "Name" = Some (PStr EmptyString)
  ∧ rrs_dict (ResourceRecordSet.from_dict ∅) !! "Type"
    = Some (PStr EmptyString).
Proof.
  destruct (serialized_record_defaults_name_and_type ∅) as [Hn Ht].
  split; [apply Hn | apply Ht]; reflexivity.
Defined.

(** ** The metadata *)

(** X7. The dictionary of a metadata value determines it: two metadata
    values with the same dictionary are the same, so every field can be
    read back from the document. *)
Theorem to_dict_determines_metadata (m1 m2 : BackupMetadata.t) :
  BackupMetadata.to_dict m1 = BackupMetadata.to_dict m2 → m1 = m2.
Proof.
  intros H.
  assert (∀ k, BackupMetadata.to_dict m1 !! k = BackupMetadata.to_dict m2 !! k)
    as Hk by (intros k; by rewrite H).
  pose proof (Hk "accountId") as H1. pose proof (Hk "hostedZoneId") as H2.
  pose proof (Hk "hostedZoneName") as H3. pose proof (Hk "triggerType") as H4.
  pose proof (Hk "timestamp") as H5. pose proof (Hk "backupId") as H6.
  destruct m1, m2. unfold BackupMetadata.to_dict in *. simpl in *.
  simplify_map_eq. done.
Qed.

Lemma to_dict_determines_metadata_witness :
  BackupMetadata.mk "111122223333" "Z123ABC" "example.com" "change"
                    "20250101T000000Z" "id"
  = BackupMetadata.mk "111122223333" "Z123ABC" "example.com" "change"
                      "20250101T000000Z" "id".
Proof. apply to_dict_determines_metadata. reflexivity. Defined.

(** ** From the zone to the document *)

(** X8. The document built from a fetched zone holds the payload of the
    [get_hosted_zone] answer as it came, the dictionary of the metadata,
    and one serialized record per listed entry, in the order of the
    listing; a zone whose pages are all empty gives an empty list of
    records, not a missing one. *)
Theorem document_of_fetched_zone
    (w : World) (zone_id : string) (hosted_zone : gmap string pyval)
    (name : pyval) (pages : list (list (gmap string pyval))) :
  route53_get_hosted_zone w zone_id = Ok hosted_zone →
  hosted_zone !! "Name" = Some name →
  route53_list_resource_record_sets w zone_id = Ok <$> pages →
  ∃ zone_details,
    outcome (fetch_hosted_zone_details w zone_id) = Ok zone_details
    ∧ ∀ metadata,
        create_backup_data zone_details metadata
        = {[ "metadata" := PDict (PStr <$> BackupMetadata.to_dict metadata);
             "hostedZone" := PDict hosted_zone;
             "resourceRecordSets" :=
               PList ((fun data =>
                         PDict (rrs_dict (ResourceRecordSet.from_dict data)))
                        <$> concat pages) ]}
        ∧ (concat pages = [] →
           create_backup_data zone_details metadata !! "resourceRecordSets"
           = Some (PList [])).
Proof.
  intros Hzone Hname Hpages.
  rewrite (fetch_all_pages w zone_id hosted_zone name pages) by done.
  eexists. split; [reflexivity|]. intros metadata.
  unfold create_backup_data. rewrite record_sets_dicts_spec. simpl.
  rewrite <- !list_fmap_compose. split; [done|].
  intros ->. done.
Qed.

Lemma document_of_fetched_zone_witness :
  ∃ zone_details,
    outcome (fetch_hosted_zone_details Sample.paged_world "Z123ABC")
      = Ok zone_details
    ∧ ∀ metadata,
        create_backup_data zone_details metadata
        = {[ "metadata" := PDict (PStr <$> BackupMetadata.to_dict metadata);
             "hostedZone" := PDict Sample.hosted_zone;
             "resourceRecordSets" :=
               PList ((fun data =>
                         PDict (rrs_dict (ResourceRecordSet.from_dict data)))
                        <$> concat Sample.pages) ]}
        ∧ (concat Sample.pages = [] →
           create_backup_data zone_details metadata !! "resourceRecordSets"
           = Some (PList [])).
Proof.
  apply (document_of_fetched_zone Sample.paged_world "Z123ABC"
           Sample.hosted_zone (PStr "example.com.") Sample.pages);
    reflexivity.
Defined.

(** ** The handler, path by path *)

Section HandlerPaths.
Variable w : World.
Variable event : Event.AWSConfigRuleEvent.

Local Ltac run_handler :=
  unfold handler, StmtM.run, handler_body, StmtM.bind, StmtM.try_except,
    handler_try, StmtM.bind, StmtM.pure, StmtM.lift,
    StmtM.assign_compliance, StmtM.assign_annotation, StmtM.read,
    handler_except, then_report, trace, outcome.

Lemma handler_when_fetch_raises rid acc mt trf e :
  configuration_item_field event Event.resource_id = Ok rid →
  configuration_item_field event Event.accountid = Ok acc →
  event_message_type event = Ok mt →
  fetch_hosted_zone_details w rid = (trf, Raise e) →
  handler w event
  = then_report trf
      (put_evaluations w event "NON_COMPLIANT" (error_annotation e)).
Proof.
  intros Hrid Hacc Hmt Hfetch. run_handler.
  rewrite Hrid, Hacc, Hmt, Hfetch. simpl. by rewrite !app_nil_r.
Qed.

Lemma handler_when_bucket_unset rid acc mt trf zd nn e :
  configuration_item_field event Event.resource_id = Ok rid →
  configuration_item_field event Event.accountid = Ok acc →
  event_message_type event = Ok mt →
  fetch_hosted_zone_details w rid = (trf, Ok zd) →
  HostedZoneDetails.normalized_name zd = Ok nn →
  os_environ w "BACKUP_BUCKET_NAME" = Raise e →
  handler w event
  = then_report trf
      (put_evaluations w event "NON_COMPLIANT" (error_annotation e)).
Proof.
  intros Hrid Hacc Hmt Hfetch Hnn Henv. run_handler.
  rewrite Hrid, Hacc, Hmt, Hfetch. simpl. rewrite Hnn, Henv. simpl.
  by rewrite !app_nil_r.
Qed.

Lemma handler_when_uploading rid acc mt trf zd nn bucket tru success :
  configuration_item_field event Event.resource_id = Ok rid →
  configuration_item_field event Event.accountid = Ok acc →
  event_message_type event = Ok mt →
  fetch_hosted_zone_details w rid = (trf, Ok zd) →
  HostedZoneDetails.normalized_name zd = Ok nn →
  os_environ w "BACKUP_BUCKET_NAME" = Ok bucket →
  upload_to_s3 w
    (create_backup_data zd
       (BackupMetadata.mk acc rid nn (trigger_type_of mt) (utcnow w) (uuid4 w)))
    bucket (s3_key_of acc nn (trigger_type_of mt) (utcnow w))
    = (tru, Ok success) →
  handler w event
  = then_report (trf ++ tru)
      (put_evaluations w event (final_compliance success)
                       (final_annotation success rid)).
Proof.
  intros Hrid Hacc Hmt Hfetch Hnn Henv Hup. run_handler.
  rewrite Hrid, Hacc, Hmt, Hfetch. simpl. rewrite Hnn, Henv. simpl.
  rewrite Hup. simpl.
  destruct success; simpl; by rewrite ?app_nil_r.
Qed.

End HandlerPaths.

Section HandlerEarly.
Variable w : World.
Variable event : Event.AWSConfigRuleEvent.

Local Ltac run_handler :=
  unfold handler, StmtM.run, handler_body, StmtM.bind, StmtM.try_except,
    handler_try, StmtM.bind, StmtM.pure, StmtM.lift,
    StmtM.assign_compliance, StmtM.assign_annotation, StmtM.read,
    handler_except, then_report, trace, outcome.

Lemma handler_when_account_unreadable rid e :
  configuration_item_field event Event.resource_id = Ok rid →
  configuration_item_field event Event.accountid = Raise e →
  handler w event
  = then_report []
      (put_evaluations w event "NON_COMPLIANT" (error_annotation e)).
Proof.
  intros Hrid Hacc. run_handler. rewrite Hrid, Hacc. simpl.
  by destruct (put_evaluations w event "NON_COMPLIANT" _).
Qed.

Lemma handler_when_message_type_unreadable rid acc e :
  configuration_item_field event Event.resource_id = Ok rid →
  configuration_item_field event Event.accountid = Ok acc →
  event_message_type event = Raise e →
  handler w event
  = then_report []
      (put_evaluations w event "NON_COMPLIANT" (error_annotation e)).
Proof.
  intros Hrid Hacc Hmt. run_handler. rewrite Hrid, Hacc, Hmt. simpl.
  by destruct (put_evaluations w event "NON_COMPLIANT" _).
Qed.

Lemma writes_app tr tr' : writes (tr ++ tr') = writes tr ++ writes tr'.
Proof. apply List.filter_app. Qed.

Lemma route53_writes tr : forallb is_route53 tr = true → writes tr = [].
Proof.
  induction tr as [|c tr IH]; simpl; [done |].
  intros [Hc Htr]%andb_prop. destruct c; try done; simpl; auto.
Qed.

End HandlerEarly.

(** X9. When every service answers, the run of the handler is: the
    request for the zone, one request per page of the listing, one write
    of the rendered document to the configured bucket under the key of
    the account, the normalized zone name, the trigger type and the
    timestamp, and one [COMPLIANT] report; the handler returns what the
    evaluation service answers. *)
Theorem handler_successful_run
    (w : World) (event : Event.AWSConfigRuleEvent)
    (rt rid ct tok acc mt name bucket body : string)
    (hosted_zone : gmap string pyval)
    (pages : list (list (gmap string pyval))) :
  configuration_item_field event Event.resource_type = Ok rt →
  configuration_item_field event Event.resource_id = Ok rid →
  configuration_item_field event Event.configuration_item_capture_time = Ok ct →
  Event.result_token event = Ok tok →
  configuration_item_field event Event.accountid = Ok acc →
  event_message_type event = Ok mt →
  route53_get_hosted_zone w rid = Ok hosted_zone →
  hosted_zone !! "Name" = Some (PStr name) →
  route53_list_resource_record_sets w rid = Ok <$> pages →
  environ w !! "BACKUP_BUCKET_NAME" = Some bucket →
  json_dumps w
    (PDict
       (create_backup_data
          (HostedZoneDetails.mk rid (PStr name) hosted_zone
             (ResourceRecordSet.from_dict <$> concat pages))
          (BackupMetadata.mk acc rid (Py.rstrip name ".")
             (trigger_type_of mt) (utcnow w) (uuid4 w))))
    = Ok body →
  s3_put_object w bucket
    (s3_key_of acc (Py.rstrip name ".") (trigger_type_of mt) (utcnow w))
    body "application/json" "AES256" = Ok tt →
  handler w event
  = (GetHostedZone rid :: list_requests rid 0 (length pages)
       ++ [ PutObject bucket
              (s3_key_of acc (Py.rstrip name ".") (trigger_type_of mt)
                         (utcnow w))
              body "application/json" "AES256";
            PutEvaluations
              [mkEvaluation rt rid "COMPLIANT" ct
                 ("Successfully backed up hosted zone " +:+ rid)] tok ],
     config_put_evaluations w
       [mkEvaluation rt rid "COMPLIANT" ct
          ("Successfully backed up hosted zone " +:+ rid)] tok).
Proof.
  intros Hrt Hrid Hct Htok Hacc Hmt Hzone Hname Hpages Henv Hdumps Hput.
  pose proof (fetch_all_pages w rid hosted_zone (PStr name) pages
                Hzone Hname Hpages) as Hfetch.
  rewrite (handler_when_uploading w event rid acc mt _ _
             (Py.rstrip name ".") bucket
             [PutObject bucket
                (s3_key_of acc (Py.rstrip name ".") (trigger_type_of mt)
                           (utcnow w))
                body "application/json" "AES256"] true
             Hrid Hacc Hmt Hfetch); try done.
  - rewrite (put_evaluations_sent w event rt rid ct tok) by done.
    unfold then_report, trace, outcome; cbn [fst snd].
    by rewrite <- app_assoc.
  - unfold os_environ. by rewrite Henv.
  - unfold upload_to_s3, EffM.try_except, EffM.bind, EffM.pure, EffM.request,
      EffM.ret.
    rewrite Hdumps. simpl. by rewrite Hput.
Qed.

Lemma handler_successful_run_witness :
  handler Sample.paged_world Sample.event
  = (GetHostedZone "/hostedzone/Z123ABC"
       :: list_requests "/hostedzone/Z123ABC" 0 (length Sample.pages)
       ++ [ PutObject "backups"
              (s3_key_of "111122223333" (Py.rstrip "example.com." ".")
                 (trigger_type_of "ConfigurationItemChangeNotification")
                 (utcnow Sample.paged_world))
              "{}" "application/json" "AES256";
            PutEvaluations
              [mkEvaluation "AWS::Route53::HostedZone" "/hostedzone/Z123ABC"
                 "COMPLIANT" "2025-01-01T00:00:00.000Z"
                 ("Successfully backed up hosted zone "
                    +:+ "/hostedzone/Z123ABC")] "token" ],
     config_put_evaluations Sample.paged_world
       [mkEvaluation "AWS::Route53::HostedZone" "/hostedzone/Z123ABC"
          "COMPLIANT" "2025-01-01T00:00:00.000Z"
          ("Successfully backed up hosted zone " +:+ "/hostedzone/Z123ABC")]
       "token").
Proof.
  apply (handler_successful_run Sample.paged_world Sample.event
           "AWS::Route53::HostedZone" "/hostedzone/Z123ABC"
           "2025-01-01T00:00:00.000Z" "token" "111122223333"
           "ConfigurationItemChangeNotification" "example.com." "backups" "{}"
           Sample.hosted_zone Sample.pages);
    reflexivity.
Defined.

(** X10. When the zone fetcher raises, whatever the cause, nothing is
    written to the store: the run is the requests the fetcher had sent,
    followed by one [NON_COMPLIANT] report whose annotation carries the
    text of the failure. *)
Theorem handler_reports_fetch_failure
    (w : World) (event : Event.AWSConfigRuleEvent)
    (rt rid ct tok acc mt : string) (trf : list call) (e : exn) :
  configuration_item_field event Event.resource_type = Ok rt →
  configuration_item_field event Event.resource_id = Ok rid →
  configuration_item_field event Event.configuration_item_capture_time = Ok ct →
  Event.result_token event = Ok tok →
  configuration_item_field event Event.accountid = Ok acc →
  event_message_type event = Ok mt →
  fetch_hosted_zone_details w rid = (trf, Raise e) →
  handler w event
  = (trf ++ [PutEvaluations
               [mkEvaluation rt rid "NON_COMPLIANT" ct
                  ("Error processing hosted zone: " +:+ exn_str e)] tok],
     config_put_evaluations w
       [mkEvaluation rt rid "NON_COMPLIANT" ct
          ("Error processing hosted zone: " +:+ exn_str e)] tok)
  ∧ writes (trace (handler w event)) = [].
Proof.
  intros Hrt Hrid Hct Htok Hacc Hmt Hfetch.
  rewrite (handler_when_fetch_raises w event rid acc mt trf e) by done.
  rewrite (put_evaluations_sent w event rt rid ct tok) by done.
  split; [done|].
  unfold then_report, trace, outcome; cbn [fst snd].
  rewrite writes_app, (route53_writes _ (fetch_route53_eq w _ _ _ Hfetch)).
  done.
Qed.

Lemma handler_reports_fetch_failure_witness :
  handler Faults.page_down Sample.event
  = ((GetHostedZone "/hostedzone/Z123ABC"
        :: list_requests "/hostedzone/Z123ABC" 0 3)
       ++ [PutEvaluations
             [mkEvaluation "AWS::Route53::HostedZone" "/hostedzone/Z123ABC"
                "NON_COMPLIANT" "2025-01-01T00:00:00.000Z"
                ("Error processing hosted zone: "
                   +:+ exn_str Faults.throttled)] "token"],
     config_put_evaluations Faults.page_down
       [mkEvaluation "AWS::Route53::HostedZone" "/hostedzone/Z123ABC"
          "NON_COMPLIANT" "2025-01-01T00:00:00.000Z"
          ("Error processing hosted zone: " +:+ exn_str Faults.throttled)]
       "token")
  ∧ writes (trace (handler Faults.page_down Sample.event)) = [].
Proof.
  apply (handler_reports_fetch_failure Faults.page_down Sample.event
           "AWS::Route53::HostedZone" "/hostedzone/Z123ABC"
           "2025-01-01T00:00:00.000Z" "token" "111122223333"
           "ConfigurationItemChangeNotification");
    reflexivity.
Defined.

(** X11. When the destination bucket is not configured, the zone is
    fetched all the same but nothing is rendered or written: the run is
    the requests of the fetcher followed by one [NON_COMPLIANT] report of
    the missing key. *)
Theorem handler_without_bucket
    (w : World) (event : Event.AWSConfigRuleEvent)
    (rt rid ct tok acc mt name : string) (trf : list call)
    (zone_details : HostedZoneDetails.t) :
  configuration_item_field event Event.resource_type = Ok rt →
  configuration_item_field event Event.resource_id = Ok rid →
  configuration_item_field event Event.configuration_item_capture_time = Ok ct →
  Event.result_token event = Ok tok →
  configuration_item_field event Event.accountid = Ok acc →
  event_message_type event = Ok mt →
  fetch_hosted_zone_details w rid = (trf, Ok zone_details) →
  HostedZoneDetails.name zone_details = PStr name →
  environ w !! "BACKUP_BUCKET_NAME" = None →
  ∃ e,
    exn_class e = "KeyError"
    ∧ handler w event
      = (trf ++ [PutEvaluations
                   [mkEvaluation rt rid "NON_COMPLIANT" ct
                      ("Error processing hosted zone: " +:+ exn_str e)] tok],
         config_put_evaluations w
           [mkEvaluation rt rid "NON_COMPLIANT" ct
              ("Error processing hosted zone: " +:+ exn_str e)] tok)
    ∧ writes (trace (handler w event)) = [].
Proof.
  intros Hrt Hrid Hct Htok Hacc Hmt Hfetch Hname Henv.
  exists (Exn "KeyError" (Py.repr "BACKUP_BUCKET_NAME")). split; [done|].
  rewrite (handler_when_bucket_unset w event rid acc mt trf zone_details
             (Py.rstrip name ".")
             (Exn "KeyError" (Py.repr "BACKUP_BUCKET_NAME")));
    try done.
  - rewrite (put_evaluations_sent w event rt rid ct tok) by done.
    split; [done|].
    unfold then_report, trace, outcome; cbn [fst snd].
    by rewrite writes_app, (route53_writes _ (fetch_route53_eq w _ _ _ Hfetch)).
  - unfold HostedZoneDetails.normalized_name. by rewrite Hname.
  - unfold os_environ. by rewrite Henv.
Qed.

Lemma handler_without_bucket_witness :
  ∃ e,
    exn_class e = "KeyError"
    ∧ handler Faults.no_bucket Sample.event
      = ([GetHostedZone "/hostedzone/Z123ABC";
          ListResourceRecordSets "/hostedzone/Z123ABC" 0;
          ListResourceRecordSets "/hostedzone/Z123ABC" 1]
           ++ [PutEvaluations
                 [mkEvaluation "AWS::Route53::HostedZone"
                    "/hostedzone/Z123ABC" "NON_COMPLIANT"
                    "2025-01-01T00:00:00.000Z"
                    ("Error processing hosted zone: " +:+ exn_str e)] "token"],
         config_put_evaluations Faults.no_bucket
           [mkEvaluation "AWS::Route53::HostedZone" "/hostedzone/Z123ABC"
              "NON_COMPLIANT" "2025-01-01T00:00:00.000Z"
              ("Error processing hosted zone: " +:+ exn_str e)] "token")
    ∧ writes (trace (handler Faults.no_bucket Sample.event)) = [].
Proof.
  apply (handler_without_bucket Faults.no_bucket Sample.event
           "AWS::Route53::HostedZone" "/hostedzone/Z123ABC"
           "2025-01-01T00:00:00.000Z" "token" "111122223333"
           "ConfigurationItemChangeNotification" "example.com."
           [GetHostedZone "/hostedzone/Z123ABC";
            ListResourceRecordSets "/hostedzone/Z123ABC" 0;
            ListResourceRecordSets "/hostedzone/Z123ABC" 1]
           (HostedZoneDetails.mk "/hostedzone/Z123ABC" (PStr "example.com.")
              Sample.hosted_zone
              (ResourceRecordSet.from_dict
                 <$> [Sample.record_a; Sample.record_txt])));
    reflexivity.
Defined.

(** X12. When the document cannot be rendered, [upload_to_s3] sends
    nothing to the store and answers [False]; the handler reports it as a
    failed upload, [NON_COMPLIANT], without the text of the rendering
    error. *)
Theorem handler_when_rendering_fails
    (w : World) (event : Event.AWSConfigRuleEvent)
    (rt rid ct tok acc mt name bucket : string) (trf : list call)
    (zone_details : HostedZoneDetails.t) (e : exn) :
  configuration_item_field event Event.resource_type = Ok rt →
  configuration_item_field event Event.resource_id = Ok rid →
  configuration_item_field event Event.configuration_item_capture_time = Ok ct →
  Event.result_token event = Ok tok →
  configuration_item_field event Event.accountid = Ok acc →
  event_message_type event = Ok mt →
  fetch_hosted_zone_details w rid = (trf, Ok zone_details) →
  HostedZoneDetails.name zone_details = PStr name →
  environ w !! "BACKUP_BUCKET_NAME" = Some bucket →
  json_dumps w
    (PDict
       (create_backup_data zone_details
          (BackupMetadata.mk acc rid (Py.rstrip name ".")
             (trigger_type_of mt) (utcnow w) (uuid4 w))))
    = Raise e →
  handler w event
  = (trf ++ [PutEvaluations
               [mkEvaluation rt rid "NON_COMPLIANT" ct
                  ("Failed to upload backup for hosted zone " +:+ rid)] tok],
     config_put_evaluations w
       [mkEvaluation rt rid "NON_COMPLIANT" ct
          ("Failed to upload backup for hosted zone " +:+ rid)] tok)
  ∧ writes (trace (handler w event)) = [].
Proof.
  intros Hrt Hrid Hct Htok Hacc Hmt Hfetch Hname Henv Hdumps.
  rewrite (handler_when_uploading w event rid acc mt trf zone_details
             (Py.rstrip name ".") bucket [] false); try done.
  - rewrite (put_evaluations_sent w event rt rid ct tok) by done.
    unfold then_report, trace, outcome; cbn [fst snd].
    rewrite app_nil_r. split; [done|].
    by rewrite writes_app, (route53_writes _ (fetch_route53_eq w _ _ _ Hfetch)).
  - unfold HostedZoneDetails.normalized_name. by rewrite Hname.
  - unfold os_environ. by rewrite Henv.
  - unfold upload_to_s3, EffM.try_except, EffM.bind, EffM.pure.
    by rewrite Hdumps.
Qed.

Lemma handler_when_rendering_fails_witness :
  handler Faults.no_rendering Sample.event
  = ([GetHostedZone "/hostedzone/Z123ABC";
      ListResourceRecordSets "/hostedzone/Z123ABC" 0;
      ListResourceRecordSets "/hostedzone/Z123ABC" 1]
       ++ [PutEvaluations
             [mkEvaluation "AWS::Route53::HostedZone" "/hostedzone/Z123ABC"
                "NON_COMPLIANT" "2025-01-01T00:00:00.000Z"
                ("Failed to upload backup for hosted zone "
                   +:+ "/hostedzone/Z123ABC")] "token"],
     config_put_evaluations Faults.no_rendering
       [mkEvaluation "AWS::Route53::HostedZone" "/hostedzone/Z123ABC"
          "NON_COMPLIANT" "2025-01-01T00:00:00.000Z"
          ("Failed to upload backup for hosted zone "
             +:+ "/hostedzone/Z123ABC")] "token")
  ∧ writes (trace (handler Faults.no_rendering Sample.event)) = [].
Proof.
  apply (handler_when_rendering_fails Faults.no_rendering Sample.event
           "AWS::Route53::HostedZone" "/hostedzone/Z123ABC"
           "2025-01-01T00:00:00.000Z" "token" "111122223333"
           "ConfigurationItemChangeNotification" "example.com." "backups"
           [GetHostedZone "/hostedzone/Z123ABC";
            ListResourceRecordSets "/hostedzone/Z123ABC" 0;
            ListResourceRecordSets "/hostedzone/Z123ABC" 1]
           (HostedZoneDetails.mk "/hostedzone/Z123ABC" (PStr "example.com.")
              Sample.hosted_zone
              (ResourceRecordSet.from_dict
                 <$> [Sample.record_a; Sample.record_txt]))
           (Exn "TypeError" "not JSON serializable"));
    reflexivity.
Defined.

(** X13. An event whose account id or message type cannot be read costs
    no request to the DNS service or to the store: the run is the single
    [NON_COMPLIANT] report of the extraction error. *)
Theorem handler_unreadable_event_sends_only_report
    (w : World) (event : Event.AWSConfigRuleEvent)
    (rt rid ct tok : string) (e : exn) :
  configuration_item_field event Event.resource_type = Ok rt →
  configuration_item_field event Event.resource_id = Ok rid →
  configuration_item_field event Event.configuration_item_capture_time = Ok ct →
  Event.result_token event = Ok tok →
  configuration_item_field event Event.accountid = Raise e
  ∨ (is_ok (configuration_item_field event Event.accountid) = true
     ∧ event_message_type event = Raise e) →
  trace (handler w event)
  = [PutEvaluations
       [mkEvaluation rt rid "NON_COMPLIANT" ct
          ("Error processing hosted zone: " +:+ exn_str e)] tok].
Proof.
  intros Hrt Hrid Hct Htok [Hacc|[Hacc Hmt]].
  - rewrite (handler_when_account_unreadable w event rid e) by done.
    by rewrite trace_then_report,
      (put_evaluations_sent w event rt rid ct tok) by done.
  - destruct (configuration_item_field event Event.accountid)
      as [acc|] eqn:Hacc'; [|done].
    rewrite (handler_when_message_type_unreadable w event rid acc e) by done.
    by rewrite trace_then_report,
      (put_evaluations_sent w event rt rid ct tok) by done.
Qed.

Lemma handler_unreadable_event_sends_only_report_witness :
  trace (handler Sample.world Sample.event_without_account)
  = [PutEvaluations
       [mkEvaluation "AWS::Route53::HostedZone" "/hostedzone/Z123ABC"
          "NON_COMPLIANT" "2025-01-01T00:00:00.000Z"
          ("Error processing hosted zone: "
             +:+ exn_str (Exn "KeyError" "'awsAccountId'"))] "token"].
Proof.
  apply (handler_unreadable_event_sends_only_report
           Sample.world Sample.event_without_account);
    try reflexivity.
  left. reflexivity.
Defined.

(** ** The handler, on every path *)

(** X14. When the fields that the report echoes can be read, the handler
    returns exactly what the evaluation service answers to its single
    report: no failure of the DNS service, of the rendering, of the store
    or of the environment leaves the handler, and a refusal of the report
    does. *)
Theorem handler_returns_reporter_answer
    (w : World) (event : Event.AWSConfigRuleEvent) (rt rid ct tok : string) :
  configuration_item_field event Event.resource_type = Ok rt →
  configuration_item_field event Event.resource_id = Ok rid →
  configuration_item_field event Event.configuration_item_capture_time = Ok ct →
  Event.result_token event = Ok tok →
  ∃ c a,
    reports (trace (handler w event))
      = [PutEvaluations [mkEvaluation rt rid c ct a] tok]
    ∧ outcome (handler w event)
      = config_put_evaluations w [mkEvaluation rt rid c ct a] tok.
Proof.
  intros Hrt Hrid Hct Htok.
  destruct (handler_runs w event)
    as [rid' acc mt trf zd nn bucket tru success
          Hrid' Hacc Hmt Hfetch Hnn Henv Hup | e | rid' e Hrid'];
    rewrite (put_evaluations_sent w event rt rid ct tok) by done;
    unfold then_report, trace, outcome; cbn [fst snd];
    rewrite !reports_app; change (reports [PutEvaluations ?e ?t])
      with [PutEvaluations e t].
  - rewrite (route53_no_reports _ (fetch_route53_eq w _ _ _ Hfetch)).
    destruct (upload_trace w _ _ _ _ _ Hup) as (-> & _ & _). simpl. eauto.
  - simpl. eauto.
  - pose proof (fetch_route53 w rid') as Hroute. unfold trace in Hroute.
    rewrite (route53_no_reports _ Hroute). simpl. eauto.
Qed.

Lemma handler_returns_reporter_answer_witness :
  ∃ c a,
    reports (trace (handler Faults.no_reporter Sample.event))
      = [PutEvaluations
           [mkEvaluation "AWS::Route53::HostedZone" "/hostedzone/Z123ABC" c
              "2025-01-01T00:00:00.000Z" a] "token"]
    ∧ outcome (handler Faults.no_reporter Sample.event)
      = config_put_evaluations Faults.no_reporter
          [mkEvaluation "AWS::Route53::HostedZone" "/hostedzone/Z123ABC" c
             "2025-01-01T00:00:00.000Z" a] "token".
Proof.
  apply (handler_returns_reporter_answer Faults.no_reporter Sample.event);
    reflexivity.
Defined.

(** X15. In every run the requests come in this order: the requests to
    the DNS service, then at most one write to the store, then at most one
    report.  Nothing is written before the zone is fetched, and nothing is
    requested after the report. *)
Theorem handler_request_order (w : World) (event : Event.AWSConfigRuleEvent) :
  ∃ dns s3 config,
    trace (handler w event) = dns ++ s3 ++ config
    ∧ forallb is_route53 dns = true
    ∧ forallb is_put_object s3 = true
    ∧ length s3 ≤ 1
    ∧ forallb is_put_evaluations config = true
    ∧ length config ≤ 1.
Proof.
  assert (∀ c a,
            forallb is_put_evaluations (trace (put_evaluations w event c a))
              = true
            ∧ length (trace (put_evaluations w event c a)) ≤ 1) as Hreport.
  { intros c a.
    destruct (put_evaluations_trace w event c a)
      as [->|(? & ? & ? & ? & _ & _ & _ & _ & ->)]; simpl; split; auto. }
  destruct (handler_runs w event)
    as [rid acc mt trf zd nn bucket tru success
          Hrid Hacc Hmt Hfetch Hnn Henv Hup | e | rid e Hrid];
    rewrite trace_then_report.
  - exists trf, tru, (trace (put_evaluations w event (final_compliance success)
                              (final_annotation success rid))).
    split; [by rewrite app_assoc|].
    split; [by eapply fetch_route53_eq|].
    destruct (Hreport (final_compliance success) (final_annotation success rid))
      as [Hr1 Hr2].
    destruct (upload_to_s3_cases w
                (create_backup_data zd
                   (BackupMetadata.mk acc rid nn (trigger_type_of mt)
                      (utcnow w) (uuid4 w)))
                bucket (s3_key_of acc nn (trigger_type_of mt) (utcnow w)))
      as [(? & _ & H)|[(? & _ & _ & H)|(? & ? & _ & _ & H)]];
      rewrite H in Hup; injection Hup as <- <-; simpl; auto.
  - exists [], [], (trace (put_evaluations w event "NON_COMPLIANT"
                             (error_annotation e))).
    destruct (Hreport "NON_COMPLIANT" (error_annotation e)) as [Hr1 Hr2].
    simpl. repeat split; auto.
  - exists (trace (fetch_hosted_zone_details w rid)), [],
      (trace (put_evaluations w event "NON_COMPLIANT" (error_annotation e))).
    destruct (Hreport "NON_COMPLIANT" (error_annotation e)) as [Hr1 Hr2].
    simpl. repeat split; auto. apply fetch_route53.
Qed.

(** X16. The key and the document of a write agree: the account id, the
    zone name, the trigger type and the timestamp of the key are those of
    the metadata inside the document written under it, the zone name being
    the normalized name of the zone whose records the document holds,
    and the timestamp and the backup id being those drawn for this run. *)
Theorem handler_key_matches_metadata
    (w : World) (event : Event.AWSConfigRuleEvent)
    (bucket key body content_type encryption : string) :
  In (PutObject bucket key body content_type encryption)
     (trace (handler w event)) →
  ∃ zone_details metadata,
    json_dumps w (PDict (create_backup_data zone_details metadata)) = Ok body
    ∧ key = s3_key_of (BackupMetadata.account_id metadata)
                      (BackupMetadata.hosted_zone_name metadata)
                      (BackupMetadata.trigger_type metadata)
                      (BackupMetadata.timestamp metadata)
    ∧ HostedZoneDetails.normalized_name zone_details
      = Ok (BackupMetadata.hosted_zone_name metadata)
    ∧ BackupMetadata.timestamp metadata = utcnow w
    ∧ BackupMetadata.backup_id metadata = uuid4 w
    ∧ environ w !! "BACKUP_BUCKET_NAME" = Some bucket.
Proof.
  intros Hin.
  pose proof (proj1 (List.Forall_forall _ _) (handler_writes w event) _ Hin)
    as (rid & acc & mt & zd & nn & _ & _ & _ & _ & Hnn & Henv & -> & Hd & _).
  eexists zd, _. split; [exact Hd|]. simpl. repeat split; try done.
  unfold os_environ in Henv.
  destruct (environ w !! "BACKUP_BUCKET_NAME"); [by injection Henv as ->|done].
Qed.

Lemma handler_key_matches_metadata_witness :
  ∃ zone_details metadata,
    json_dumps Sample.world (PDict (create_backup_data zone_details metadata))
      = Ok "{}"
    ∧ "route53-backup/111122223333/example.com/change-20250101T000000Z.json"
      = s3_key_of (BackupMetadata.account_id metadata)
                  (BackupMetadata.hosted_zone_name metadata)
                  (BackupMetadata.trigger_type metadata)
                  (BackupMetadata.timestamp metadata)
    ∧ HostedZoneDetails.normalized_name zone_details
      = Ok (BackupMetadata.hosted_zone_name metadata)
    ∧ BackupMetadata.timestamp metadata = utcnow Sample.world
    ∧ BackupMetadata.backup_id metadata = uuid4 Sample.world
    ∧ environ Sample.world !! "BACKUP_BUCKET_NAME" = Some "backups".
Proof.
  apply (handler_key_matches_metadata Sample.world Sample.event
           "backups"
           "route53-backup/111122223333/example.com/change-20250101T000000Z.json"
           "{}" "application/json" "AES256").
  vm_compute. do 3 right. left. reflexivity.
Defined.

(** ** The storage boundary, on its own *)

(** X17. [upload_to_s3] never raises and sends at most one request; it
    answers [True] exactly when the document was rendered and the store
    accepted it, and when the rendering fails it sends nothing.  The
    request asks for the JSON content type and AES256 encryption. *)
Theorem upload_to_s3_boundary
    (w : World) (data : gmap string pyval) (bucket key : string) :
  ∃ success,
    outcome (upload_to_s3 w data bucket key) = Ok success
    ∧ (success = true ↔
       ∃ body,
         json_dumps w (PDict data) = Ok body
         ∧ s3_put_object w bucket key body "application/json" "AES256"
           = Ok tt)
    ∧ (is_ok (json_dumps w (PDict data)) = false →
       trace (upload_to_s3 w data bucket key) = [])
    ∧ (∀ body, json_dumps w (PDict data) = Ok body →
               trace (upload_to_s3 w data bucket key)
               = [PutObject bucket key body "application/json" "AES256"]).
Proof.
  destruct (upload_to_s3_cases w data bucket key)
    as [(e & Hd & H)|[(body & Hd & Hput & H)|(body & e & Hd & Hput & H)]];
    rewrite H, Hd; unfold trace, outcome; cbn [fst snd].
  - exists false. split; [done|]. split.
    + split; [done|]. by intros (? & ? & _).
    + by split.
  - exists true. split; [done|]. split.
    + split; [|done]. intros _. by exists body.
    + split; [done|]. by intros ? [= <-].
  - exists false. split; [done|]. split.
    + split; [done|]. intros (b & [= <-] & Hput'). by rewrite Hput in Hput'.
    + split; [done|]. by intros ? [= <-].
Qed.

Lemma upload_to_s3_boundary_witness :
  ∃ success,
    outcome (upload_to_s3 Faults.no_rendering ∅ "backups" "key") = Ok success
    ∧ (success = true ↔
       ∃ body,
         json_dumps Faults.no_rendering (PDict ∅) = Ok body
         ∧ s3_put_object Faults.no_rendering "backups" "key" body
             "application/json" "AES256" = Ok tt)
    ∧ trace (upload_to_s3 Faults.no_rendering ∅ "backups" "key") = [].
Proof.
  destruct (upload_to_s3_boundary Faults.no_rendering ∅ "backups" "key")
    as (success & Hout & Hiff & Hnone & _).
  exists success. split; [exact Hout|]. split; [exact Hiff|].
  apply Hnone. reflexivity.
Defined.

(** ** The last path segment *)

Section LastSegment.

Lemma split_cases (s : string) (sep : ascii) :
  (Py.mem sep s = false ∧ Py.split s sep = [s])
  ∨ (Py.mem sep s = true
     ∧ ∃ seg seg' segs, Py.split s sep = seg :: seg' :: segs).
Proof.
  induction s as [|c s IH]; simpl.
  - by left.
  - rewrite (Ascii.eqb_sym sep c). destruct (Ascii.eqb c sep) eqn:Hc.
    + right. split; [done|].
      destruct IH as [[_ ->]|(_ & seg & seg' & segs & ->)]; eauto.
    + destruct IH as [[-> ->]|(-> & seg & seg' & segs & ->)]; [by left|].
      right. split; [done|]. eauto.
Qed.

Lemma last_segment_cons (c : ascii) (s : string) (sep : ascii) :
  default EmptyString (last (Py.split (String c s) sep))
  = if Ascii.eqb c sep || Py.mem sep s
    then default EmptyString (last (Py.split s sep))
    else String c s.
Proof.
  simpl.
  destruct (split_cases s sep) as [[Hm Hs]|(Hm & seg & seg' & segs & Hs)];
    rewrite Hm, Hs; destruct (Ascii.eqb c sep); simpl; done.
Qed.

Lemma mem_app_sep (p t : string) (sep : ascii) :
  Py.mem sep (p +:+ String sep t) = true.
Proof.
  induction p as [|c p IH]; rewrite ?string_app_cons; simpl.
  - by rewrite Ascii.eqb_refl.
  - rewrite IH. by destruct (Ascii.eqb sep c).
Qed.

Lemma last_segment_no_sep (s : string) (sep : ascii) :
  Py.mem sep s = false →
  default EmptyString (last (Py.split s sep)) = s.
Proof.
  intros H. by destruct (split_cases s sep) as [[_ ->]|[H' _]]; [|congruence].
Qed.

Lemma last_segment_after_sep (p t : string) (sep : ascii) :
  Py.mem sep t = false →
  default EmptyString (last (Py.split (p +:+ String sep t) sep)) = t.
Proof.
  intros Ht. induction p as [|c p IH].
  - rewrite string_app_nil_l, last_segment_cons, Ascii.eqb_refl. simpl.
    by apply last_segment_no_sep.
  - rewrite string_app_cons, last_segment_cons, mem_app_sep, orb_true_r.
    exact IH.
Qed.

Lemma last_segment_free (s : string) (sep : ascii) :
  Py.mem sep (default EmptyString (last (Py.split s sep))) = false.
Proof.
  induction s as [|c s IH]; [done|].
  rewrite last_segment_cons.
  destruct (Ascii.eqb c sep) eqn:Hc; simpl; [done|].
  destruct (Py.mem sep s) eqn:Hm; [done|].
  simpl. rewrite (Ascii.eqb_sym sep c), Hc. exact Hm.
Qed.

End LastSegment.

(** X18. [ConfigItem.hosted_zone_id] is what follows the last ['/'] of
    the resource id: it holds no ['/'], it is the resource id itself when
    that holds none, and it is empty when the resource id ends with
    one. *)
Theorem hosted_zone_id_is_last_segment (item : ConfigItem.t) :
  Py.mem "/" (ConfigItem.hosted_zone_id item) = false
  ∧ (Py.mem "/" (ConfigItem.resource_id item) = false →
     ConfigItem.hosted_zone_id item = ConfigItem.resource_id item)
  ∧ (∀ prefix segment,
       ConfigItem.resource_id item = prefix +:+ "/" +:+ segment →
       Py.mem "/" segment = false →
       ConfigItem.hosted_zone_id item = segment)
  ∧ (∀ prefix,
       ConfigItem.resource_id item = prefix +:+ "/" →
       ConfigItem.hosted_zone_id item = EmptyString).
Proof.
  unfold ConfigItem.hosted_zone_id. split; [apply last_segment_free|].
  split; [apply last_segment_no_sep|]. split.
  - intros prefix segment -> Hseg. by apply last_segment_after_sep.
  - intros prefix ->. by apply (last_segment_after_sep prefix EmptyString).
Qed.

Lemma hosted_zone_id_is_last_segment_witness :
  ConfigItem.hosted_zone_id
    (ConfigItem.mk "Z123ABC" "AWS::Route53::HostedZone" "ok") = "Z123ABC"
  ∧ ConfigItem.hosted_zone_id
      (ConfigItem.mk "/hostedzone/Z123ABC" "AWS::Route53::HostedZone" "ok")
    = "Z123ABC"
  ∧ ConfigItem.hosted_zone_id
      (ConfigItem.mk "/hostedzone/" "AWS::Route53::HostedZone" "ok")
    = EmptyString.
Proof.
  split; [|split].
  - apply (hosted_zone_id_is_last_segment
             (ConfigItem.mk "Z123ABC" "AWS::Route53::HostedZone" "ok")).
    reflexivity.
  - apply (proj1 (proj2 (proj2 (hosted_zone_id_is_last_segment
             (ConfigItem.mk "/hostedzone/Z123ABC" "AWS::Route53::HostedZone"
                            "ok")))) "/hostedzone" "Z123ABC");
      reflexivity.
  - apply (proj2 (proj2 (proj2 (hosted_zone_id_is_last_segment
             (ConfigItem.mk "/hostedzone/" "AWS::Route53::HostedZone" "ok"))))
             "/hostedzone").
    reflexivity.
Defined.

(** ** The reporter, when the event cannot be read *)

(** X19. When one of the fields that the report echoes (resource type,
    resource id, capture time, result token) cannot be read,
    [put_evaluations] raises before it sends anything; the handler then
    sends no report in any world, whatever happened before, and the
    exception leaves it. *)
Theorem unreadable_report_fields_silence_handler
    (w : World) (event : Event.AWSConfigRuleEvent) :
  is_ok (configuration_item_field event Event.resource_type)
    && is_ok (configuration_item_field event Event.resource_id)
    && is_ok (configuration_item_field event
                Event.configuration_item_capture_time)
    && is_ok (Event.result_token event) = false →
  (∀ c a, trace (put_evaluations w event c a) = []
          ∧ is_ok (outcome (put_evaluations w event c a)) = false)
  ∧ reports (trace (handler w event)) = []
  ∧ is_ok (outcome (handler w event)) = false.
Proof.
  intros Hfields.
  assert (∀ c a, ∃ e, put_evaluations w event c a = ([], Raise e)) as Hput.
  { intros c a.
    destruct (put_evaluations_cases w event c a)
      as [H|(rt & rid & ct & tok & Hrt & Hrid & Hct & Htok)]; [done|].
    by rewrite Hrt, Hrid, Hct, Htok in Hfields. }
  split.
  { intros c a. by destruct (Hput c a) as [e ->]. }
  destruct (handler_runs w event)
    as [rid acc mt trf zd nn bucket tru success
          Hrid Hacc Hmt Hfetch Hnn Henv Hup | e | rid e Hrid];
    rewrite trace_then_report, outcome_then_report.
  - destruct (Hput (final_compliance success) (final_annotation success rid))
      as [e ->]. unfold trace, outcome; cbn [fst snd].
    rewrite app_nil_r, reports_app.
    rewrite (route53_no_reports _ (fetch_route53_eq w _ _ _ Hfetch)).
    by destruct (upload_trace w _ _ _ _ _ Hup) as (-> & _ & _).
  - by destruct (Hput "NON_COMPLIANT" (error_annotation e)) as [e' ->].
  - destruct (Hput "NON_COMPLIANT" (error_annotation e)) as [e' ->].
    rewrite app_nil_r. split; [|done].
    apply route53_no_reports, fetch_route53.
Qed.

Lemma unreadable_report_fields_silence_handler_witness :
  (∀ c a, trace (put_evaluations Sample.world Sample.scheduled_event c a) = []
          ∧ is_ok (outcome (put_evaluations Sample.world
                              Sample.scheduled_event c a)) = false)
  ∧ reports (trace (handler Sample.world Sample.scheduled_event)) = []
  ∧ is_ok (outcome (handler Sample.world Sample.scheduled_event)) = false.
Proof.
  apply (unreadable_report_fields_silence_handler
           Sample.world Sample.scheduled_event).
  reflexivity.
Defined.
